(** * Daigou ledger: transaction derivation, aggregation, store and exports

    A shallow embedding of the ledger logic of the application
    ([src/App.tsx] and the single-file build [src/types.ts]):
    the country table, the per-transaction derivations that each
    presentation recomputes, the [stats] reducer, the confirmation-gated
    delete and clear handlers, the entry form's submit handler, the
    clipboard and CSV renderers and the summary handed to the analysis
    service.

    Amounts are ECMAScript Numbers, that is IEEE 754 binary64 values with
    round-to-nearest-even arithmetic.  They are modelled by Rocq's
    primitive [float], whose operations are specified by [SpecFloat] for
    exactly this format. *)

From Stdlib Require Import ZArith List String Ascii Bool Lia Floats Permutation.
Import ListNotations.

Set Warnings "-inexact-float".

Local Open Scope string_scope.

(** ** ECMAScript Numbers *)

Module JS.

Definition number := float.

(** The integer [z] as a Number (the nearest binary64 value; exact for
    every integer of magnitude below 2^53). *)
Definition Z2SF (z : Z) : spec_float := binary_normalize prec emax z 0 false.
Definition ofZ (z : Z) : number := SF2Prim (Z2SF z).

(** [ToBoolean] on a Number: [+0], [-0] and [NaN] are falsy. *)
Definition truthy (x : number) : bool := negb (is_nan x || is_zero x).

(** [x || d] for a Number [x]. *)
Definition orDefault (x d : number) : number := if truthy x then x else d.

(** [ToBoolean] on a String: only the empty string is falsy. *)
Definition truthyString (s : string) : bool := negb (String.eqb s "").

(** [Math.round]: a value that is not finite or is already integral is
    returned unchanged; any other value [v] yields the integer
    [floor (v + 1/2)] (ties go towards +Infinity), with the sign of
    zero following [v].  A finite value is [±m * 2^e]; when [e < 0]
    its magnitude is below 2^53, so the result is computed exactly on
    integers. *)
Definition Math_round (x : number) : number :=
  match Prim2SF x with
  | S754_finite s m e =>
      if (0 <=? e)%Z then x
      else
        let n := ((2 * cond_Zopp s (Zpos m) + 2 ^ (- e)) / 2 ^ (1 - e))%Z in
        if (n =? 0)%Z then (if s then neg_zero else zero) else ofZ n
  | _ => x
  end.

(** The integer a Number denotes, when it is a finite integral value
    other than [-0]. *)
Definition toZ (x : number) : option Z :=
  match Prim2SF x with
  | S754_zero false => Some 0%Z
  | S754_finite s m e =>
      if (0 <=? e)%Z then Some (cond_Zopp s (Zpos m * 2 ^ e))
      else if (Zpos m mod 2 ^ (- e) =? 0)%Z
           then Some (cond_Zopp s (Zpos m / 2 ^ (- e)))
           else None
  | _ => None
  end.

(** The safe-integer range, in which every integer is a Number. *)
Definition safe (z : Z) : bool := (Z.abs z <? 2 ^ 53)%Z.

End JS.

Import JS.

(** ** Data model ([Transaction], [SummaryStats]) *)

(** [country] is declared ['JP' | 'KR' | 'OTHER'], but records read back
    from storage may lack the field or carry any string, which is why
    every consumer has a default branch; the field is therefore an
    optional string.  [sellingExchangeRate] is optional in the source. *)
Record Transaction := mkTransaction {
  id : string;
  country : option string;
  customerName : string;
  itemName : string;
  quantity : number;
  costJpy : number;
  exchangeRate : number;
  sellingExchangeRate : option number;
  priceSold : number;
  date : string
}.

Record SummaryStats := mkStats {
  totalSales : number;
  totalCost : number;
  totalProfit : number;
  itemCount : number
}.

(** ** Country table ([COUNTRY_CONFIG], [getCountryLabel], [getCurrencySymbol]) *)

Record CountryConfig := mkConfig {
  label : string;
  rate : number;
  sellingRate : number;
  currency : string
}.

(** The object literal, as its own properties in source order. *)
Definition COUNTRY_CONFIG : list (string * CountryConfig) :=
  [ ("JP",    mkConfig "日本" 0.2%float  0.28%float  "¥");
    ("KR",    mkConfig "韓國" 0.02%float 0.035%float "₩");
    ("OTHER", mkConfig "其他" 1.0%float  1.0%float   "$") ].

(** The own property of [obj] named [key], if it has one. *)
Fixpoint getProp {A} (obj : list (string * A)) (key : string) : option A :=
  match obj with
  | [] => None
  | (k, v) :: rest => if String.eqb k key then Some v else getProp rest key
  end.

(** The string-keyed members that every object literal inherits from
    [Object.prototype]. *)
Definition objectPrototypeKeys : list string :=
  [ "constructor"; "__defineGetter__"; "__defineSetter__"; "hasOwnProperty";
    "__lookupGetter__"; "__lookupSetter__"; "isPrototypeOf";
    "propertyIsEnumerable"; "toString"; "valueOf"; "__proto__";
    "toLocaleString" ].

(** What [obj[key]] evaluates to on an object literal: an own property,
    else a member inherited from [Object.prototype] (a function, or the
    prototype itself for [__proto__]), else [undefined]. *)
Inductive PropValue (A : Type) :=
| OwnValue (v : A)
| InheritedValue
| UndefinedValue.

Arguments OwnValue {A} v.
Arguments InheritedValue {A}.
Arguments UndefinedValue {A}.

Definition propertyAccess {A} (obj : list (string * A)) (key : string)
  : PropValue A :=
  match getProp obj key with
  | Some v => OwnValue v
  | None =>
      if existsb (String.eqb key) objectPrototypeKeys
      then InheritedValue else UndefinedValue
  end.

(** [c === k] on the optional field. *)
Definition countryIs (c : option string) (k : string) : bool :=
  match c with
  | Some s => String.eqb s k
  | None => false
  end.

(** The [switch] statements compare with [===], case by case. *)
Definition getCountryLabel (c : option string) : string :=
  if countryIs c "JP" then "日本"
  else if countryIs c "KR" then "韓國"
  else if countryIs c "OTHER" then "其他"
  else "日本".

Definition getCurrencySymbol (c : option string) : string :=
  if countryIs c "JP" then "¥"
  else if countryIs c "KR" then "₩"
  else if countryIs c "OTHER" then "$"
  else "¥".

(** ** Per-transaction derivations, one per presentation

    Each presentation recomputes the derived amounts with its own local
    constants; they are kept apart here exactly as in the source. *)

Local Open Scope float_scope.

(** Table body of [TransactionList]. *)
Module Table.
Definition localCostUnit (t : Transaction) : number :=
  Math_round (costJpy t * exchangeRate t).
Definition totalProfit (t : Transaction) : number :=
  (priceSold t - localCostUnit t) * quantity t.
End Table.

(** [handleCopyToClipboard]. *)
Module Clipboard.
Definition localCostUnit (t : Transaction) : number :=
  Math_round (costJpy t * exchangeRate t).
Definition totalProfit (t : Transaction) : number :=
  (priceSold t - localCostUnit t) * quantity t.
End Clipboard.

(** [handleExportCSV]. *)
Module Csv.
Definition localCostPerUnit (t : Transaction) : number :=
  Math_round (costJpy t * exchangeRate t).
Definition localCostTotal (t : Transaction) : number :=
  localCostPerUnit t * quantity t.
Definition totalSales (t : Transaction) : number :=
  priceSold t * quantity t.
Definition totalProfit (t : Transaction) : number :=
  totalSales t - localCostTotal t.
Definition profitPerUnit (t : Transaction) : number :=
  priceSold t - localCostPerUnit t.
End Csv.

(** ** Ledger aggregator ([stats]) *)

Definition statsStep (acc : SummaryStats) (t : Transaction) : SummaryStats :=
  let unitCostTwd := Math_round (costJpy t * exchangeRate t) in
  let totalCost' := unitCostTwd * quantity t in
  let totalSales' := priceSold t * quantity t in
  let profit := totalSales' - totalCost' in
  {| totalSales := totalSales acc + totalSales';
     totalCost := totalCost acc + totalCost';
     totalProfit := totalProfit acc + profit;
     itemCount := itemCount acc + quantity t |}.

Definition stats (transactions : list Transaction) : SummaryStats :=
  fold_left statsStep transactions
    {| totalSales := 0; totalCost := 0; totalProfit := 0; itemCount := 0 |}.

(** ** Ledger store: application state and its handlers *)

Inductive ModalType := single | all.

Record ModalConfig := mkModal {
  isOpen : bool;
  type : option ModalType;
  targetId : option string
}.

Record AppState := mkApp {
  transactions : list Transaction;
  modalConfig : ModalConfig
}.

Definition closedModal : ModalConfig :=
  {| isOpen := false; type := None; targetId := None |}.

Definition executeDelete (st : AppState) : AppState :=
  let m := modalConfig st in
  let transactions' :=
    match type m, targetId m with
    | Some single, Some target =>
        if truthyString target
        then filter (fun t => negb (String.eqb (id t) target)) (transactions st)
        else transactions st
    | Some all, _ => []
    | _, _ => transactions st
    end in
  {| transactions := transactions'; modalConfig := closedModal |}.

Definition handleAddTransaction (newTransaction : Transaction) (st : AppState) : AppState :=
  {| transactions := transactions st ++ [newTransaction];
     modalConfig := modalConfig st |}.

Definition handleDeleteTransaction (i : string) (st : AppState) : AppState :=
  {| transactions := transactions st;
     modalConfig := {| isOpen := true; type := Some single; targetId := Some i |} |}.

Definition handleClearAllTransactions (st : AppState) : AppState :=
  {| transactions := transactions st;
     modalConfig := {| isOpen := true; type := Some all; targetId := None |} |}.

Definition cancel (st : AppState) : AppState :=
  {| transactions := transactions st; modalConfig := closedModal |}.

(** The store operations of the ledger: a request followed by its
    confirmation. *)
Definition remove (i : string) (st : AppState) : AppState :=
  executeDelete (handleDeleteTransaction i st).

Definition clear (st : AppState) : AppState :=
  executeDelete (handleClearAllTransactions st).

(** ** Entry form ([TransactionForm]) *)

Module Form.

(** The form keeps every field as the text that was typed. *)
Record FormData := mkForm {
  date : string;
  customerName : string;
  itemName : string;
  quantity : string;
  costForeign : string;
  exchangeRate : string;
  sellingExchangeRate : string;
  priceSold : string
}.

Section Submit.

(** The host's [parseInt] and [parseFloat]. *)
Variables parseInt parseFloat : string -> number.

(** The [onAddTransaction] prop. *)
Variable onAddTransaction : Transaction -> AppState -> AppState.

(** [country] is the form's selected country; [freshId] is the text
    produced by [Date.now().toString(36) + Math.random()...] and
    [nowISO] the text of [new Date().toISOString()] at the time of
    the call.  The result is the application state after the
    callback ran (or did not) and the form's next content. *)
Definition handleSubmit (country : string) (formData : FormData)
    (freshId nowISO : string) (st : AppState) : AppState * FormData :=
  if negb (truthyString (customerName formData))
     || negb (truthyString (itemName formData))
  then (st, formData)
  else
    let quantity' := orDefault (parseInt (quantity formData)) 1 in
    let costForeign' := orDefault (parseFloat (costForeign formData)) 0 in
    let exchangeRate' := orDefault (parseFloat (exchangeRate formData)) 0 in
    let sellingExchangeRate' :=
      orDefault (parseFloat (sellingExchangeRate formData)) 0 in
    let priceSold' := orDefault (parseFloat (priceSold formData)) 0 in
    let newTransaction :=
      mkTransaction freshId (Some country)
        (customerName formData) (itemName formData)
        quantity' costForeign' exchangeRate' (Some sellingExchangeRate')
        priceSold'
        (if truthyString (date formData) then date formData else nowISO) in
    (onAddTransaction newTransaction st,
     {| date := date formData;
        customerName := "";
        itemName := "";
        quantity := "1";
        costForeign := "";
        exchangeRate := exchangeRate formData;
        sellingExchangeRate := sellingExchangeRate formData;
        priceSold := "" |}).

End Submit.

End Form.

(** The form as [App] mounts it: [onAddTransaction={handleAddTransaction}]. *)
Definition submit (parseInt parseFloat : string -> number) :=
  Form.handleSubmit parseInt parseFloat handleAddTransaction.

(** ** Export formatter ([handleCopyToClipboard], [handleExportCSV]) *)

(** An element of the array that is joined into a row: a string, or a
    Number still to be converted by [join]. *)
Inductive Cell :=
| CStr (s : string)
| CNum (x : number).

Definition dquote : string := String "034"%char EmptyString.
Definition tab : string := String "009"%char EmptyString.
Definition newline : string := String "010"%char EmptyString.
(** U+FEFF in UTF-8. *)
Definition BOM : string :=
  String "239"%char (String "187"%char (String "191"%char EmptyString)).

(** A template literal that wraps its content in double quotes. *)
Definition quoteWrap (s : string) : string := dquote ++ s ++ dquote.

Section Render.

(** [Number::toString], used by template literals and by [join]. *)
Variable numberToString : number -> string.

(** [s => new Date(s).toLocaleDateString()]. *)
Variable toLocaleDateString : string -> string.

Definition cellToString (c : Cell) : string :=
  match c with
  | CStr s => s
  | CNum x => numberToString x
  end.

Definition join (sep : string) (cells : list Cell) : string :=
  String.concat sep (map cellToString cells).

(** [t.sellingExchangeRate || placeholder]. *)
Definition sellingRateOr (placeholder : string) (t : Transaction) : Cell :=
  match sellingExchangeRate t with
  | Some r => if truthy r then CNum r else CStr placeholder
  | None => CStr placeholder
  end.

Definition clipboardHeaders : list Cell :=
  map CStr [ "日期"; "國家"; "客人名字"; "商品名稱"; "數量"; "外幣成本(單件)";
             "當日匯率"; "賣出匯率"; "台幣成本(單件)"; "售價(單件)"; "總利潤" ].

Definition clipboardCells (t : Transaction) : list Cell :=
  let localCostUnit := Clipboard.localCostUnit t in
  let totalProfit := Clipboard.totalProfit t in
  let sellingRate := sellingRateOr "-" t in
  let currency := getCurrencySymbol (country t) in
  [ CStr (toLocaleDateString (date t));
    CStr (getCountryLabel (country t));
    CStr (customerName t);
    CStr (itemName t);
    CNum (quantity t);
    CStr (currency ++ numberToString (costJpy t));
    CNum (exchangeRate t);
    sellingRate;
    CStr ("$" ++ numberToString localCostUnit);
    CStr ("$" ++ numberToString (priceSold t));
    CStr ("$" ++ numberToString totalProfit) ].

Definition clipboardRows (transactions : list Transaction) : list string :=
  map (fun t => join tab (clipboardCells t)) (rev transactions).

(** The text handed to [navigator.clipboard.writeText]. *)
Definition textToCopy (transactions : list Transaction) : string :=
  String.concat newline (join tab clipboardHeaders :: clipboardRows transactions).

Definition csvHeaders : list Cell :=
  map CStr [ "日期"; "國家"; "客人名字"; "商品名稱"; "數量"; "外幣成本(單件)";
             "當日匯率"; "賣出匯率"; "台幣成本(單件)"; "售價"; "單件利潤"; "總利潤" ].

Definition csvCells (t : Transaction) : list Cell :=
  let localCostPerUnit := Csv.localCostPerUnit t in
  let totalProfit := Csv.totalProfit t in
  let profitPerUnit := Csv.profitPerUnit t in
  let sellingRate := sellingRateOr "" t in
  let countryLabel :=
    if countryIs (country t) "KR" then "韓國"
    else if countryIs (country t) "OTHER" then "其他" else "日本" in
  let currencySymbol :=
    if countryIs (country t) "KR" then "₩"
    else if countryIs (country t) "OTHER" then "$" else "¥" in
  [ CStr (toLocaleDateString (date t));
    CStr countryLabel;
    CStr (quoteWrap (customerName t));
    CStr (quoteWrap (itemName t));
    CNum (quantity t);
    CStr (quoteWrap (currencySymbol ++ numberToString (costJpy t)));
    CNum (exchangeRate t);
    sellingRate;
    CStr (quoteWrap ("$" ++ numberToString localCostPerUnit));
    CStr (quoteWrap ("$" ++ numberToString (priceSold t)));
    CStr (quoteWrap ("$" ++ numberToString profitPerUnit));
    CStr (quoteWrap ("$" ++ numberToString totalProfit)) ].

Definition csvRows (transactions : list Transaction) : list string :=
  map (fun t => join "," (csvCells t)) transactions.

Definition csvContent (transactions : list Transaction) : string :=
  BOM ++ String.concat newline (join "," csvHeaders :: csvRows transactions).

End Render.

(** A string cell is quote-wrapped when it is a double quote, some
    content, and a double quote. *)
Definition quoteWrapped (s : string) : Prop := exists body, s = quoteWrap body.

(** The string-valued ("text-bearing") cells of a row. *)
Fixpoint textCells (cells : list Cell) : list string :=
  match cells with
  | [] => []
  | CStr s :: rest => s :: textCells rest
  | CNum _ :: rest => textCells rest
  end.

(** ** Outbound analysis summary ([analyzeSalesData]) *)

(** [t.country || 'JP']. *)
Definition countryOrJP (t : Transaction) : string :=
  match country t with
  | Some c => if truthyString c then c else "JP"
  | None => "JP"
  end.

Module Analysis.

Record Entry := mkEntry {
  country : string;
  item : string;
  qty : number;
  cost : number;
  rate : number;
  sold : number;
  profit : number
}.

Definition entry (t : Transaction) : Entry :=
  {| country := countryOrJP t;
     item := itemName t;
     qty := quantity t;
     cost := costJpy t;
     rate := exchangeRate t;
     sold := priceSold t;
     profit := (priceSold t - (costJpy t * exchangeRate t)) * quantity t |}.

Definition dataSummary (transactions : list Transaction) : list Entry :=
  map entry transactions.

End Analysis.

(** ** The derivation and the aggregate as the specification words them

    [derive] follows the specification's derivation rules (total profit
    as total sales minus total cost) and [sum] is the left-to-right sum
    from zero; they are what [stats] is compared with. *)

Module Spec.

Record Derived := mkDerived {
  unitLocalCost : number;
  unitProfit : number;
  totalProfit : number;
  totalSales : number;
  totalCost : number
}.

Definition derive (t : Transaction) : Derived :=
  let unitLocalCost := Math_round (costJpy t * exchangeRate t) in
  let totalSales := priceSold t * quantity t in
  let totalCost := unitLocalCost * quantity t in
  {| unitLocalCost := unitLocalCost;
     unitProfit := priceSold t - unitLocalCost;
     totalProfit := totalSales - totalCost;
     totalSales := totalSales;
     totalCost := totalCost |}.

Definition sum (xs : list number) : number := fold_left PrimFloat.add xs 0.

End Spec.

(** ** Ledgers on which binary64 arithmetic is exact

    A transaction has integral amounts when its price, its quantity and
    its rounded unit cost are integral Numbers with price and cost
    non-negative and quantity at least one.  [volume] bounds every
    amount derived from such a transaction, and a ledger whose volumes
    add up to less than 2^53 never leaves the safe-integer range. *)

Definition amounts (t : Transaction) : option (Z * Z * Z) :=
  match toZ (priceSold t), toZ (quantity t),
        toZ (Math_round (costJpy t * exchangeRate t)) with
  | Some p, Some q, Some u =>
      if ((0 <=? p) && (1 <=? q) && (0 <=? u))%Z then Some (p, q, u) else None
  | _, _, _ => None
  end.

Definition volume (t : Transaction) : Z :=
  match amounts t with
  | Some (p, q, u) => ((p + u + 1) * (q + 1))%Z
  | None => (2 ^ 53)%Z
  end.

Definition totalVolume (ts : list Transaction) : Z :=
  fold_right Z.add 0%Z (map volume ts).

Definition exactLedger (ts : list Transaction) : bool :=
  (totalVolume ts <? 2 ^ 53)%Z.

(** The integer sums that [stats] computes on such a ledger. *)
Definition amountsOr0 (t : Transaction) : Z * Z * Z :=
  match amounts t with
  | Some a => a
  | None => (0, 0, 0)%Z
  end.

Definition salesZ (t : Transaction) : Z :=
  let '(p, q, _) := amountsOr0 t in (p * q)%Z.
Definition costZ (t : Transaction) : Z :=
  let '(_, q, u) := amountsOr0 t in (u * q)%Z.
Definition profitZ (t : Transaction) : Z := (salesZ t - costZ t)%Z.
Definition countZ (t : Transaction) : Z :=
  let '(_, q, _) := amountsOr0 t in q.

Definition sumZ (f : Transaction -> Z) (ts : list Transaction) : Z :=
  fold_right Z.add 0%Z (map f ts).

(** Canonical binary64 mantissa and exponent of a positive integer below
    2^53, and the format's exponent function. *)
Definition fexp64 (e : Z) : Z := Z.max (e - 53) (-1074).
Definition mant (p : positive) : positive :=
  Pos.shiftl p (Z.to_N (53 - Zpos (digits2_pos p))).
Definition expo (p : positive) : Z := Zpos (digits2_pos p) - 53.
Definition signed (s : bool) (p : positive) : Z := cond_Zopp s (Zpos p).

(** A product is exact unless its sign would be lost in a zero: zero
    times a negative number is [-0], which no integer denotes. *)
Definition mul_signs_ok (a b : Z) : Prop :=
  (a = 0%Z -> 0 <= b)%Z /\ (b = 0%Z -> 0 <= a)%Z.

(** [stats] of a ledger of integral amounts, from its integer sums. *)
Definition statsZ (S C P N : Z) : SummaryStats :=
  {| totalSales := ofZ S; totalCost := ofZ C; totalProfit := ofZ P; itemCount := ofZ N |}.

(** A single transaction of integral amounts within the safe range. *)
Definition exactTx (t : Transaction) : bool := (volume t <? 2 ^ 53)%Z.

(** ** Sample ledgers *)

Definition sampleTx (i : string) (c : option string)
    (q cost r p : number) : Transaction :=
  {| id := i; country := c; customerName := "王小明"; itemName := "合力他命";
     quantity := q; costJpy := cost; exchangeRate := r;
     sellingExchangeRate := None; priceSold := p; date := "2024-01-15" |}.

(** The specification's scenario: KR, 2 pieces at 1000 won, rate 0.02,
    sold at 30. *)
Definition txKR : Transaction := sampleTx "k1" (Some "KR") 2 1000 0.02 30.

(** 3 pieces at 50 yen, rate 0.2 (unit cost 10), sold at 10.9. *)
Definition txFraction : Transaction := sampleTx "f1" (Some "JP") 3 50 0.2 10.9.

(** 3 pieces at 50 yen, rate 0.2 (unit cost 10), sold at 22.1. *)
Definition txFraction2 : Transaction := sampleTx "f2" (Some "JP") 3 50 0.2 22.1.

(** One piece each, no cost, sold at 0.1, 0.2 and 0.3. *)
Definition txDime1 : Transaction := sampleTx "d1" (Some "OTHER") 1 0 1 0.1.
Definition txDime2 : Transaction := sampleTx "d2" (Some "OTHER") 1 0 1 0.2.
Definition txDime3 : Transaction := sampleTx "d3" (Some "OTHER") 1 0 1 0.3.

(** 2 pieces at 1025 won, rate 0.02 (20.5 before rounding), sold at 30. *)
Definition txHalf : Transaction := sampleTx "h1" (Some "KR") 2 1025 0.02 30.

(** One piece whose cost, 1e-20, is far below the price's last digit. *)
Definition txTiny : Transaction := sampleTx "t1" (Some "OTHER") 1 1e-20 1 1000.

(** A record read back from storage with an empty id. *)
Definition txNoId : Transaction := sampleTx "" (Some "JP") 1 100 0.2 30.

(** A record read back from storage without a country. *)
Definition txNoCountry : Transaction := sampleTx "n1" None 1 100 0.2 30.

Definition idle (ledger : list Transaction) : AppState :=
  {| transactions := ledger; modalConfig := closedModal |}.

(** The predicate [remove] filters with. *)
Definition keepOthers (i : string) (t : Transaction) : bool :=
  negb (String.eqb (id t) i).

(** A row cell with its text wrapped in double quotes (a Number is left
    as it is). *)
Definition quoteCell (c : Cell) : Cell :=
  match c with
  | CStr s => CStr (quoteWrap s)
  | CNum x => CNum x
  end.

(** ** Entry form: editing handlers and live preview *)

Module FormUI.

(** The inputs wired to [handleChange], by their [name] attribute. *)
Inductive InputName :=
| in_date | in_customerName | in_itemName | in_quantity
| in_costForeign | in_exchangeRate | in_sellingExchangeRate | in_priceSold.

Definition InputName_eqb (a b : InputName) : bool :=
  match a, b with
  | in_date, in_date | in_customerName, in_customerName
  | in_itemName, in_itemName | in_quantity, in_quantity
  | in_costForeign, in_costForeign | in_exchangeRate, in_exchangeRate
  | in_sellingExchangeRate, in_sellingExchangeRate
  | in_priceSold, in_priceSold => true
  | _, _ => false
  end.

Definition getField (name : InputName) (fd : Form.FormData) : string :=
  match name with
  | in_date => Form.date fd
  | in_customerName => Form.customerName fd
  | in_itemName => Form.itemName fd
  | in_quantity => Form.quantity fd
  | in_costForeign => Form.costForeign fd
  | in_exchangeRate => Form.exchangeRate fd
  | in_sellingExchangeRate => Form.sellingExchangeRate fd
  | in_priceSold => Form.priceSold fd
  end.

(** [{ ...prev, [name]: value }]. *)
Definition setField (name : InputName) (value : string) (prev : Form.FormData)
  : Form.FormData :=
  let pick n := if InputName_eqb n name then value else getField n prev in
  {| Form.date := pick in_date;
     Form.customerName := pick in_customerName;
     Form.itemName := pick in_itemName;
     Form.quantity := pick in_quantity;
     Form.costForeign := pick in_costForeign;
     Form.exchangeRate := pick in_exchangeRate;
     Form.sellingExchangeRate := pick in_sellingExchangeRate;
     Form.priceSold := pick in_priceSold |}.

(** The component's state: the selected country and the form content. *)
Record FormState := mkFormState {
  country : string;
  formData : Form.FormData
}.

Section Handlers.

(** The host's [parseInt], [parseFloat] and [String]. *)
Variables parseInt parseFloat : string -> number.
Variable toText : number -> string.

Definition handleChange (name : InputName) (value : string) (prev : Form.FormData)
  : Form.FormData :=
  let updated := setField name value prev in
  if InputName_eqb name in_costForeign || InputName_eqb name in_sellingExchangeRate
  then
    let cost :=
      if InputName_eqb name in_costForeign
      then parseFloat value else parseFloat (Form.costForeign prev) in
    let sRate :=
      if InputName_eqb name in_sellingExchangeRate
      then parseFloat value else parseFloat (Form.sellingExchangeRate prev) in
    if negb (is_nan cost) && negb (is_nan sRate)
    then setField in_priceSold (toText (Math_round (cost * sRate))) updated
    else if InputName_eqb name in_costForeign && String.eqb value ""
         then setField in_priceSold "" updated
         else updated
  else updated.

(** [config] is [COUNTRY_CONFIG[newCountry]].  On an own entry its
    [rate] and [sellingRate] are read.  An inherited member has neither
    property: both read [undefined], whose text is ["undefined"] and
    which is [NaN] in a product.  [None] stands for the [TypeError]
    raised by reading a property of [undefined]. *)
Definition handleCountryChange (newCountry : string) (fs : FormState)
  : option FormState :=
  let currentCost := orDefault (parseFloat (Form.costForeign (formData fs))) 0 in
  let next (rateText sellingText : string) (selling : number) :=
    let newPriceSold :=
      if 0 <? currentCost
      then toText (Math_round (currentCost * selling))
      else Form.priceSold (formData fs) in
    {| country := newCountry;
       formData :=
         {| Form.date := Form.date (formData fs);
            Form.customerName := Form.customerName (formData fs);
            Form.itemName := Form.itemName (formData fs);
            Form.quantity := Form.quantity (formData fs);
            Form.costForeign := Form.costForeign (formData fs);
            Form.exchangeRate := rateText;
            Form.sellingExchangeRate := sellingText;
            Form.priceSold := newPriceSold |} |} in
  match propertyAccess COUNTRY_CONFIG newCountry with
  | OwnValue config =>
      Some (next (toText (rate config)) (toText (sellingRate config))
                 (sellingRate config))
  | InheritedValue => Some (next "undefined" "undefined" nan)
  | UndefinedValue => None
  end.


(** The live preview computed on every render. *)
Definition previewQuantity (fd : Form.FormData) : number :=
  orDefault (parseInt (Form.quantity fd)) 0.
Definition previewCostForeign (fd : Form.FormData) : number :=
  orDefault (parseFloat (Form.costForeign fd)) 0.
Definition previewExchangeRate (fd : Form.FormData) : number :=
  orDefault (parseFloat (Form.exchangeRate fd)) 0.
Definition previewPriceSold (fd : Form.FormData) : number :=
  orDefault (parseFloat (Form.priceSold fd)) 0.
Definition localCostUnit (fd : Form.FormData) : number :=
  Math_round (previewCostForeign fd * previewExchangeRate fd).
Definition estimatedProfit (fd : Form.FormData) : number :=
  (previewPriceSold fd - localCostUnit fd) * previewQuantity fd.
Definition profitMargin (fd : Form.FormData) : number :=
  if 0 <? previewPriceSold fd
  then Math_round (((previewPriceSold fd - localCostUnit fd) / previewPriceSold fd) * 100)
  else 0.

End Handlers.

End FormUI.

(** The keys of the country table, which are the buttons the form
    renders ([Object.keys(COUNTRY_CONFIG)]). *)
Definition countryButtons : list string := map fst COUNTRY_CONFIG.

(** ** Analysis service ([analyzeSalesData], [handleAiAnalysis]) *)

(** What the remote call comes back with: a response whose [text] may be
    missing, or an exception. *)
Inductive ServiceReply :=
| Reply (text : option string)
| Failure.

Definition emptyLedgerMessage : string :=
  "尚無銷售數據可供分析。請先新增一些交易紀錄。".
Definition noReportMessage : string := "無法產生分析報告。".
Definition failureMessage : string :=
  "分析過程中發生錯誤，請檢查您的 API Key 或稍後再試。".
Definition missingKeyAlert : string :=
  "請先設定 API Key 才能使用 AI 分析功能。".

Record AnalysisState := mkAnalysis {
  aiAnalysis : option string;
  isAnalyzing : bool
}.

(** What one run of a handler did to the outside world. *)
Record Effects := mkEffects {
  prompts : list string;
  alerts : list string
}.

Section AnalysisService.

(** The template literal around [JSON.stringify(dataSummary)]. *)
Variable buildPrompt : list Analysis.Entry -> string.

(** [ai.models.generateContent], awaited. *)
Variable generateContent : string -> ServiceReply.

(** The text returned, and the prompts that were sent. *)
Definition analyzeSalesData (transactions : list Transaction)
  : string * list string :=
  match transactions with
  | [] => (emptyLedgerMessage, [])
  | _ :: _ =>
      let prompt := buildPrompt (Analysis.dataSummary transactions) in
      (match generateContent prompt with
       | Reply (Some text) => if truthyString text then text else noReportMessage
       | Reply None => noReportMessage
       | Failure => failureMessage
       end,
       [prompt])
  end.

(** The state once the awaited call has settled ([apiKey] is
    [process.env.API_KEY]). *)
Definition handleAiAnalysis (apiKey : option string)
    (transactions : list Transaction) (a : AnalysisState)
  : AnalysisState * Effects :=
  match apiKey with
  | Some key =>
      if truthyString key
      then
        let '(result, sent) := analyzeSalesData transactions in
        ({| aiAnalysis := Some result; isAnalyzing := false |},
         {| prompts := sent; alerts := [] |})
      else (a, {| prompts := []; alerts := [missingKeyAlert] |})
  | None => (a, {| prompts := []; alerts := [missingKeyAlert] |})
  end.

End AnalysisService.

(** ** Sample host functions and forms *)

(** Stand-ins for [parseFloat] and [String] on the few texts and values
    the examples use. *)
Definition sampleParseFloat (s : string) : number :=
  if String.eqb s "0.035" then 0.035
  else if String.eqb s "0.02" then 0.02
  else if String.eqb s "1000" then 1000
  else if String.eqb s "30" then 30
  else nan.

Definition sampleParseInt (s : string) : number :=
  if String.eqb s "2" then 2 else nan.

Definition sampleToText (x : number) : string :=
  if PrimFloat.eqb x 0.035 then "0.035"
  else if PrimFloat.eqb x 0.02 then "0.02"
  else if PrimFloat.eqb x 35 then "35"
  else "?".

Definition sampleForm (customer qty cost price : string) : Form.FormData :=
  Form.mkForm "2024-01-15" customer "合力他命" qty cost "0.02" "0.035" price.

(** A price that is not a number, as a record read back from storage
    may carry. *)
Definition txNaN : Transaction := sampleTx "x1" (Some "JP") 1 100 0.2 nan.

(** * Binary64 arithmetic on safe integers

    Rounding a value that the format represents returns that value, so
    sums, differences and products of integers stay exact as long as
    they stay below 2^53 in magnitude. *)

Local Open Scope Z_scope.
Local Close Scope float_scope.
Local Close Scope string_scope.

Lemma fexp_eq e : fexp prec emax e = fexp64 e.
Proof. reflexivity. Qed.

Lemma iter_pos_iter {A} (f : A -> A) n : forall x, iter_pos f n x = Pos.iter f x n.
Proof.
  induction n as [n IH|n IH|]; intros x; simpl.
  - rewrite !IH. rewrite <- !Pos.iter_swap. reflexivity.
  - rewrite !IH. reflexivity.
  - reflexivity.
Qed.

Lemma digits2_pos_shift m d : digits2_pos (Pos.iter xO m d) = (digits2_pos m + d)%positive.
Proof.
  induction d as [|d IH] using Pos.peano_ind.
  - simpl. lia.
  - rewrite Pos.iter_succ. simpl. rewrite IH. lia.
Qed.

Lemma Zpos_iter_xO m d : Zpos (Pos.iter xO m d) = (Zpos m * 2 ^ Zpos d)%Z.
Proof.
  induction d as [|d IH] using Pos.peano_ind.
  - simpl. lia.
  - rewrite Pos.iter_succ. change (Zpos (Pos.iter xO m d)~0) with (2 * Zpos (Pos.iter xO m d))%Z.
    rewrite IH, Pos2Z.inj_succ, Z.pow_succ_r by lia. lia.
Qed.

Lemma shr_iter_exact M d :
  Pos.iter shr_1 (Build_shr_record (Zpos (Pos.iter xO M d)) false false) d
  = Build_shr_record (Zpos M) false false.
Proof.
  induction d as [|d IH] using Pos.peano_ind.
  - reflexivity.
  - rewrite (Pos.iter_succ d positive xO), (Pos.iter_succ_r d _ shr_1). simpl. exact IH.
Qed.

Lemma digits2_pos_bounds p :
  (2 ^ (Zpos (digits2_pos p) - 1) <= Zpos p < 2 ^ Zpos (digits2_pos p))%Z.
Proof.
  induction p as [p IH|p IH|]; simpl digits2_pos.
  - rewrite Pos2Z.inj_succ. change (Zpos p~1) with (2 * Zpos p + 1)%Z.
    replace (Z.succ (Zpos (digits2_pos p)) - 1)%Z with (Z.succ (Zpos (digits2_pos p) - 1))%Z by lia.
    rewrite !Z.pow_succ_r by lia. lia.
  - rewrite Pos2Z.inj_succ. change (Zpos p~0) with (2 * Zpos p)%Z.
    replace (Z.succ (Zpos (digits2_pos p)) - 1)%Z with (Z.succ (Zpos (digits2_pos p) - 1))%Z by lia.
    rewrite !Z.pow_succ_r by lia. lia.
  - cbv. split; [discriminate | reflexivity].
Qed.

Lemma digits2_pos_safe p : (Zpos p < 2 ^ 53)%Z -> (Zpos (digits2_pos p) <= 53)%Z.
Proof.
  intros H. destruct (digits2_pos_bounds p) as [L _].
  destruct (Z_le_gt_dec (Zpos (digits2_pos p)) 53) as [|G]; [assumption|exfalso].
  assert (2 ^ 53 <= 2 ^ (Zpos (digits2_pos p) - 1))%Z by (apply Z.pow_le_mono_r; lia).
  lia.
Qed.

(** binary_round_aux on a mantissa that is the canonical one shifted left *)
Lemma binary_round_aux_canon s M E n q :
  canonical_mantissa prec emax M E = true ->
  (E <= 971)%Z -> (0 <= n)%Z ->
  Zpos q = (Zpos M * 2 ^ n)%Z ->
  binary_round_aux prec emax s (Zpos q) (E - n) loc_Exact = S754_finite s M E.
Proof.
  intros HC HE Hn Hq.
  unfold canonical_mantissa in HC. rewrite fexp_eq in HC. apply Z.eqb_eq in HC.
  destruct n as [|d|d]; [| |lia].
  - rewrite Z.pow_0_r, Z.mul_1_r in Hq. injection Hq as ->.
    rewrite Z.sub_0_r.
    unfold binary_round_aux, shr_fexp. simpl Zdigits2. rewrite !fexp_eq, HC, Z.sub_diag.
    cbn [shr shr_record_of_loc shr_m loc_of_shr_record round_nearest_even].
    cbn [Zdigits2]. rewrite fexp_eq, HC, Z.sub_diag. cbn [shr shr_m].
    replace (E <=? emax - prec)%Z with true; [reflexivity|].
    symmetry; apply Z.leb_le. change (emax - prec)%Z with 971%Z. lia.
  - rewrite <- Zpos_iter_xO in Hq. injection Hq as ->.
    unfold binary_round_aux, shr_fexp. cbn [Zdigits2].
    rewrite digits2_pos_shift, fexp_eq.
    replace (Zpos (digits2_pos M + d) + (E - Zpos d))%Z with (Zpos (digits2_pos M) + E)%Z by lia.
    rewrite HC. replace (E - (E - Zpos d))%Z with (Zpos d) by lia.
    cbn [shr shr_record_of_loc]. rewrite iter_pos_iter, shr_iter_exact.
    cbn [shr_m loc_of_shr_record round_nearest_even Zdigits2].
    replace (E - Zpos d + Zpos d)%Z with E by lia.
    rewrite fexp_eq, HC, Z.sub_diag. cbn [shr shr_m shr_record_of_loc].
    replace (E <=? emax - prec)%Z with true; [reflexivity|].
    symmetry; apply Z.leb_le. change (emax - prec)%Z with 971%Z. lia.
Qed.

Lemma digits2_pos_scale q M n :
  (0 <= n)%Z -> Zpos q = (Zpos M * 2 ^ n)%Z ->
  Zpos (digits2_pos q) = (Zpos (digits2_pos M) + n)%Z.
Proof.
  intros Hn Hq. destruct n as [|d|d]; [| |lia].
  - rewrite Z.pow_0_r, Z.mul_1_r in Hq. injection Hq as ->. lia.
  - rewrite <- Zpos_iter_xO in Hq. injection Hq as ->.
    rewrite digits2_pos_shift. lia.
Qed.

(** The master lemma: rounding a value that is representable yields its
    canonical representation. *)
Lemma binary_round_canon s M E q e :
  canonical_mantissa prec emax M E = true ->
  (E <= 971)%Z ->
  (E <= e /\ Zpos M = Zpos q * 2 ^ (e - E))%Z \/
  (e <= E /\ Zpos q = Zpos M * 2 ^ (E - e))%Z ->
  binary_round prec emax s q e = S754_finite s M E.
Proof.
  intros HC HE HV.
  assert (HC' := HC).
  unfold canonical_mantissa in HC'. rewrite fexp_eq in HC'. apply Z.eqb_eq in HC'.
  assert (HD : (Zpos (digits2_pos q) + e = Zpos (digits2_pos M) + E)%Z).
  { destruct HV as [[Hle HV]|[Hle HV]].
    - apply digits2_pos_scale in HV; lia.
    - apply digits2_pos_scale in HV; lia. }
  unfold binary_round. rewrite fexp_eq, HD, HC'.
  destruct HV as [[Hle HV]|[Hle HV]].
  - unfold shl_align. destruct (E - e)%Z as [|d|d] eqn:Hd; [| lia |].
    + assert (e = E) by lia. subst e. rewrite Z.sub_diag, Z.pow_0_r, Z.mul_1_r in HV.
      injection HV as ->.
      replace E with (E - 0)%Z at 1 by lia.
      apply binary_round_aux_canon; auto; lia.
    + replace (e - E)%Z with (Zpos d) in HV by lia.
      rewrite <- Zpos_iter_xO in HV. injection HV as <-.
      replace E with (E - 0)%Z at 1 by lia.
      apply binary_round_aux_canon; auto; lia.
  - unfold shl_align. destruct (E - e)%Z as [|d|d] eqn:Hd; [| | lia].
    + replace e with (E - 0)%Z by lia. apply binary_round_aux_canon; auto; lia.
    + replace e with (E - Zpos d)%Z by lia. apply binary_round_aux_canon; auto; lia.
Qed.

Lemma mant_val p :
  (Zpos p < 2 ^ 53)%Z -> Zpos (mant p) = (Zpos p * 2 ^ (- expo p))%Z.
Proof.
  intros H. apply digits2_pos_safe in H. unfold mant, expo.
  replace (- (Zpos (digits2_pos p) - 53))%Z with (53 - Zpos (digits2_pos p))%Z by lia.
  destruct (53 - Zpos (digits2_pos p))%Z as [|d|d] eqn:Hd; [| | lia].
  - simpl. lia.
  - simpl Z.to_N. simpl Pos.shiftl. apply Zpos_iter_xO.
Qed.

Lemma canonical_int p :
  (Zpos p < 2 ^ 53)%Z -> canonical_mantissa prec emax (mant p) (expo p) = true.
Proof.
  intros H. unfold canonical_mantissa. rewrite fexp_eq. apply Z.eqb_eq.
  assert (HD : Zpos (digits2_pos (mant p)) = (Zpos (digits2_pos p) + - expo p)%Z).
  { apply digits2_pos_scale; [|apply mant_val; assumption].
    apply digits2_pos_safe in H. unfold expo. lia. }
  rewrite HD. unfold fexp64, expo. lia.
Qed.

Lemma expo_range p : (Zpos p < 2 ^ 53)%Z -> (-52 <= expo p <= 0)%Z.
Proof. intros H. apply digits2_pos_safe in H. unfold expo. lia. Qed.

(** Rounding [p * 2^k] held at exponent [-k] *)
Lemma binary_round_scale s p k q :
  (Zpos p < 2 ^ 53)%Z -> (0 <= k)%Z -> Zpos q = (Zpos p * 2 ^ k)%Z ->
  binary_round prec emax s q (- k) = S754_finite s (mant p) (expo p).
Proof.
  intros Hp Hk Hq.
  pose proof (expo_range p Hp) as HR. pose proof (mant_val p Hp) as HM.
  apply binary_round_canon; [apply canonical_int; assumption | lia |].
  destruct (Z_le_gt_dec (expo p) (- k)) as [Hle|Hgt].
  - left. split; [assumption|].
    rewrite HM, Hq, <- Z.mul_assoc, <- Z.pow_add_r by lia.
    f_equal. f_equal. lia.
  - right. split; [lia|].
    rewrite HM, Hq, <- Z.mul_assoc, <- Z.pow_add_r by lia.
    f_equal. f_equal. lia.
Qed.

Lemma Z2SF_pos p : (Zpos p < 2 ^ 53)%Z -> Z2SF (Zpos p) = S754_finite false (mant p) (expo p).
Proof.
  intros H. unfold Z2SF, binary_normalize.
  apply (binary_round_scale false p 0 p H); lia.
Qed.

Lemma Z2SF_neg p : (Zpos p < 2 ^ 53)%Z -> Z2SF (Zneg p) = S754_finite true (mant p) (expo p).
Proof.
  intros H. unfold Z2SF, binary_normalize.
  apply (binary_round_scale true p 0 p H); lia.
Qed.

Lemma binary_normalize_scale z k :
  safe z = true -> (0 <= k)%Z ->
  binary_normalize prec emax (z * 2 ^ k) (- k) false = Z2SF z.
Proof.
  unfold safe. intros Hz Hk. apply Z.ltb_lt in Hz.
  assert (0 < 2 ^ k)%Z by (apply Z.pow_pos_nonneg; lia).
  destruct z as [|p|p].
  - reflexivity.
  - rewrite Z2SF_pos by (simpl in Hz; lia).
    destruct (Zpos p * 2 ^ k)%Z as [|q|q] eqn:Hq; [lia| |lia].
    simpl. apply binary_round_scale; [simpl in Hz; lia | lia | auto].
  - rewrite Z2SF_neg by (simpl in Hz; lia).
    destruct (Zneg p * 2 ^ k)%Z as [|q|q] eqn:Hq; [lia|lia|].
    simpl. apply binary_round_scale; [simpl in Hz; lia | lia | lia].
Qed.

Lemma valid_Z2SF z : safe z = true -> valid_binary (Z2SF z) = true.
Proof.
  unfold safe. intros Hz. apply Z.ltb_lt in Hz. destruct z as [|p|p].
  - reflexivity.
  - rewrite Z2SF_pos by (simpl in Hz; lia). simpl. unfold bounded.
    rewrite canonical_int by (simpl in Hz; lia). simpl.
    apply Z.leb_le. pose proof (expo_range p). change (emax - prec)%Z with 971%Z. simpl in Hz. lia.
  - rewrite Z2SF_neg by (simpl in Hz; lia). simpl. unfold bounded.
    rewrite canonical_int by (simpl in Hz; lia). simpl.
    apply Z.leb_le. pose proof (expo_range p). change (emax - prec)%Z with 971%Z. simpl in Hz. lia.
Qed.

Lemma shl_align_val M E ez :
  (ez <= E)%Z -> Zpos (fst (shl_align M E ez)) = (Zpos M * 2 ^ (E - ez))%Z.
Proof.
  intros H. unfold shl_align. destruct (ez - E)%Z as [|d|d] eqn:Hd; [| lia |].
  - cbn [fst]. replace (E - ez)%Z with 0%Z by lia. rewrite Z.pow_0_r. lia.
  - cbn [fst]. rewrite Zpos_iter_xO. f_equal. f_equal. lia.
Qed.

Lemma Z2SF_signed s p :
  (Zpos p < 2 ^ 53)%Z -> Z2SF (signed s p) = S754_finite s (mant p) (expo p).
Proof. destruct s; [apply Z2SF_neg | apply Z2SF_pos]. Qed.

Lemma signed_cases z : z <> 0%Z -> exists s p, z = signed s p /\ Z.abs z = Zpos p.
Proof.
  destruct z as [|p|p]; intros H; [congruence| |].
  - exists false, p. split; reflexivity.
  - exists true, p. split; reflexivity.
Qed.

Lemma cond_Zopp_mul s a b : (cond_Zopp s a * b = cond_Zopp s (a * b))%Z.
Proof. destruct s; simpl; lia. Qed.

Lemma SFadd_int a b :
  safe a = true -> safe b = true -> safe (a + b) = true ->
  SF64add (Z2SF a) (Z2SF b) = Z2SF (a + b).
Proof.
  intros Ha Hb Hab.
  destruct (Z.eq_dec a 0) as [->|Na].
  { destruct (Z.eq_dec b 0) as [->|Nb]; [reflexivity|].
    destruct (signed_cases b Nb) as (s & p & -> & Hp).
    unfold safe in Hb. rewrite Hp in Hb. apply Z.ltb_lt in Hb.
    rewrite Z.add_0_l, Z2SF_signed by assumption. reflexivity. }
  destruct (Z.eq_dec b 0) as [->|Nb].
  { destruct (signed_cases a Na) as (s & p & -> & Hp).
    unfold safe in Ha. rewrite Hp in Ha. apply Z.ltb_lt in Ha.
    rewrite Z.add_0_r, Z2SF_signed by assumption. reflexivity. }
  destruct (signed_cases a Na) as (sa & pa & -> & Hpa).
  destruct (signed_cases b Nb) as (sb & pb & -> & Hpb).
  unfold safe in Ha, Hb. rewrite Hpa in Ha. rewrite Hpb in Hb.
  apply Z.ltb_lt in Ha, Hb.
  rewrite (Z2SF_signed sa pa Ha), (Z2SF_signed sb pb Hb).
  unfold SF64add, SFadd.
  pose proof (expo_range pa Ha) as Ra. pose proof (expo_range pb Hb) as Rb.
  set (ez := Z.min (expo pa) (expo pb)).
  rewrite !shl_align_val by (unfold ez; lia).
  rewrite (mant_val pa Ha), (mant_val pb Hb).
  rewrite <- !Z.mul_assoc, <- !Z.pow_add_r by (unfold ez; lia).
  replace (- expo pa + (expo pa - ez))%Z with (- ez)%Z by lia.
  replace (- expo pb + (expo pb - ez))%Z with (- ez)%Z by lia.
  rewrite <- !cond_Zopp_mul, <- Z.mul_add_distr_r.
  replace ez with (- - ez)%Z at 2 by lia.
  apply binary_normalize_scale; [assumption | unfold ez; lia].
Qed.

Lemma SFsub_add x y : SF64sub x y = SF64add x (SFopp y).
Proof.
  destruct x as [sx|sx| |sx mx ex], y as [sy|sy| |sy my ey];
    try reflexivity;
    destruct sx, sy; reflexivity.
Qed.

Lemma SFsub_int a b :
  safe a = true -> safe b = true -> safe (a - b) = true ->
  SF64sub (Z2SF a) (Z2SF b) = Z2SF (a - b).
Proof.
  intros Ha Hb Hab. rewrite SFsub_add.
  destruct (Z.eq_dec b 0) as [->|Nb].
  { rewrite Z.sub_0_r. destruct (Z.eq_dec a 0) as [->|Na]; [reflexivity|].
    destruct (signed_cases a Na) as (s & p & -> & Hp).
    unfold safe in Ha. rewrite Hp in Ha. apply Z.ltb_lt in Ha.
    rewrite Z2SF_signed by assumption. reflexivity. }
  replace (SFopp (Z2SF b)) with (Z2SF (- b)).
  - apply SFadd_int; auto. unfold safe in *. rewrite Z.abs_opp. assumption.
  - destruct (signed_cases b Nb) as (s & p & -> & Hp).
    unfold safe in Hb. rewrite Hp in Hb. apply Z.ltb_lt in Hb.
    replace (- signed s p)%Z with (signed (negb s) p) by (destruct s; reflexivity).
    rewrite !Z2SF_signed by assumption. reflexivity.
Qed.

Lemma signed_mul sa pa sb pb :
  signed sa pa * signed sb pb = signed (xorb sa sb) (pa * pb).
Proof. destruct sa, sb; reflexivity. Qed.

Lemma digits2_pos_mul pa pb :
  Zpos (digits2_pos pa) + Zpos (digits2_pos pb) - 1 <= Zpos (digits2_pos (pa * pb)).
Proof.
  pose proof (digits2_pos_bounds pa) as Da. pose proof (digits2_pos_bounds pb) as Db.
  pose proof (digits2_pos_bounds (pa * pb)) as Dab.
  destruct (Z_le_gt_dec (Zpos (digits2_pos pa) + Zpos (digits2_pos pb) - 1)
                        (Zpos (digits2_pos (pa * pb)))) as [|G]; [assumption|exfalso].
  assert (H : 2 ^ Zpos (digits2_pos (pa * pb))
              <= 2 ^ ((Zpos (digits2_pos pa) - 1) + (Zpos (digits2_pos pb) - 1)))
    by (apply Z.pow_le_mono_r; lia).
  rewrite Z.pow_add_r in H by lia.
  rewrite Pos2Z.inj_mul in Dab. nia.
Qed.

Lemma SFmul_signed sa pa sb pb :
  Zpos pa < 2 ^ 53 -> Zpos pb < 2 ^ 53 -> Zpos (pa * pb) < 2 ^ 53 ->
  SF64mul (S754_finite sa (mant pa) (expo pa)) (S754_finite sb (mant pb) (expo pb))
  = S754_finite (xorb sa sb) (mant (pa * pb)) (expo (pa * pb)).
Proof.
  intros Ha Hb Hab. unfold SF64mul, SFmul.
  pose proof (expo_range pa Ha) as Ra. pose proof (expo_range pb Hb) as Rb.
  pose proof (expo_range (pa * pb) Hab) as Rab.
  pose proof (digits2_pos_mul pa pb) as HD.
  replace (expo pa + expo pb)
    with (expo (pa * pb) - (expo (pa * pb) - expo pa - expo pb)) by lia.
  apply binary_round_aux_canon.
  - apply canonical_int; assumption.
  - lia.
  - unfold expo in *. lia.
  - rewrite Pos2Z.inj_mul, (mant_val pa Ha), (mant_val pb Hb), (mant_val _ Hab).
    rewrite <- (Z.mul_assoc (Zpos (pa * pb))), <- Z.pow_add_r by (unfold expo in *; lia).
    replace (- expo (pa * pb) + (expo (pa * pb) - expo pa - expo pb))
      with (- expo pa + - expo pb) by lia.
    rewrite Z.pow_add_r by lia. rewrite Pos2Z.inj_mul. ring.
Qed.

Lemma SFmul_int a b :
  mul_signs_ok a b ->
  safe a = true -> safe b = true -> safe (a * b) = true ->
  SF64mul (Z2SF a) (Z2SF b) = Z2SF (a * b).
Proof.
  intros [Hab0 Hba0] Sa Sb Hab. unfold safe in *. apply Z.ltb_lt in Hab, Sa, Sb.
  destruct (Z.eq_dec a 0) as [->|Na].
  { specialize (Hab0 eq_refl). destruct b as [|pb|pb]; [reflexivity| |lia].
    rewrite Z.mul_0_l, (Z2SF_pos pb) by (simpl in Sb; lia). reflexivity. }
  destruct (Z.eq_dec b 0) as [->|Nb].
  { specialize (Hba0 eq_refl). destruct a as [|pa|pa]; [reflexivity| |lia].
    rewrite Z.mul_0_r, (Z2SF_pos pa) by (simpl in Sa; lia). reflexivity. }
  destruct (signed_cases a Na) as (sa & pa & -> & Hpa).
  destruct (signed_cases b Nb) as (sb & pb & -> & Hpb).
  rewrite Hpa in Sa. rewrite Hpb in Sb.
  rewrite signed_mul in *.
  assert (Hp : Zpos (pa * pb) < 2 ^ 53) by (destruct (xorb sa sb); simpl in Hab; lia).
  rewrite !Z2SF_signed by assumption.
  apply SFmul_signed; assumption.
Qed.

(** ** From the specification of the format to the primitive operations *)

Lemma Prim2SF_ofZ z : safe z = true -> Prim2SF (ofZ z) = Z2SF z.
Proof. intros H. unfold ofZ. apply Prim2SF_SF2Prim, valid_Z2SF, H. Qed.

Lemma add_exact a b :
  safe a = true -> safe b = true -> safe (a + b) = true ->
  PrimFloat.add (ofZ a) (ofZ b) = ofZ (a + b).
Proof.
  intros Ha Hb Hab. apply Prim2SF_inj.
  rewrite add_spec, !Prim2SF_ofZ by assumption. apply SFadd_int; assumption.
Qed.

Lemma sub_exact a b :
  safe a = true -> safe b = true -> safe (a - b) = true ->
  PrimFloat.sub (ofZ a) (ofZ b) = ofZ (a - b).
Proof.
  intros Ha Hb Hab. apply Prim2SF_inj.
  rewrite sub_spec, !Prim2SF_ofZ by assumption. apply SFsub_int; assumption.
Qed.

Lemma mul_exact a b :
  mul_signs_ok a b ->
  safe a = true -> safe b = true -> safe (a * b) = true ->
  PrimFloat.mul (ofZ a) (ofZ b) = ofZ (a * b).
Proof.
  intros Hs Ha Hb Hab. apply Prim2SF_inj.
  rewrite mul_spec, !Prim2SF_ofZ by assumption. apply SFmul_int; assumption.
Qed.

(** An integral Number is the image of the integer it denotes. *)
Lemma toZ_ofZ x z : toZ x = Some z -> x = ofZ z.
Proof.
  unfold toZ. intros H.
  pose proof (Prim2SF_valid x) as V.
  rewrite <- (SF2Prim_Prim2SF x). unfold ofZ. f_equal.
  destruct (Prim2SF x) as [[|]| | |s m e]; try discriminate.
  - injection H as <-. reflexivity.
  - simpl in V. unfold bounded in V. apply andb_true_iff in V. destruct V as [VC VE].
    apply Z.leb_le in VE. change (emax - prec) with 971 in VE.
    destruct (0 <=? e) eqn:He.
    + apply Z.leb_le in He. injection H as Hz.
      change (cond_Zopp s (Zpos m * 2 ^ e) = z) in Hz. subst z.
      assert (0 < 2 ^ e) by (apply Z.pow_pos_nonneg; lia).
      destruct (Zpos m * 2 ^ e) as [|q|q] eqn:Hq; [lia| |lia].
      unfold Z2SF. symmetry. destruct s; simpl;
        (apply binary_round_canon; [assumption | assumption |];
         right; split; [lia|]; rewrite Z.sub_0_r; auto).
    + apply Z.leb_gt in He.
      destruct (Zpos m mod 2 ^ (- e) =? 0) eqn:Hm; [|discriminate].
      apply Z.eqb_eq in Hm. injection H as <-.
      assert (P : 0 < 2 ^ (- e)) by (apply Z.pow_pos_nonneg; lia).
      assert (HQ : Zpos m = Zpos m / 2 ^ (- e) * 2 ^ (- e)).
      { rewrite Z.mul_comm. apply Z.div_exact; lia. }
      destruct (Zpos m / 2 ^ (- e)) as [|q|q] eqn:Hq; [lia| |lia].
      unfold Z2SF. symmetry. destruct s; simpl;
        (apply binary_round_canon; [assumption | assumption |];
         left; split; [lia|]; rewrite Z.sub_0_l; auto).
Qed.

(** * The ledger on integral amounts *)

Lemma safe_lt z : Z.abs z < 2 ^ 53 -> safe z = true.
Proof. intros H. unfold safe. apply Z.ltb_lt, H. Qed.

(** Side conditions of the exactness lemmas: a bound below 2^53, or the
    sign condition of a product. *)
Ltac safe_bound := first [ apply safe_lt; nia | split; lia ].

Lemma amounts_sound t p q u :
  amounts t = Some (p, q, u) ->
  priceSold t = ofZ p /\ quantity t = ofZ q /\
  Math_round (PrimFloat.mul (costJpy t) (exchangeRate t)) = ofZ u /\
  0 <= p /\ 1 <= q /\ 0 <= u.
Proof.
  unfold amounts. intros H.
  destruct (toZ (priceSold t)) as [p'|] eqn:Hp; [|discriminate].
  destruct (toZ (quantity t)) as [q'|] eqn:Hq; [|discriminate].
  destruct (toZ (Math_round _)) as [u'|] eqn:Hu; [|discriminate].
  destruct ((0 <=? p') && (1 <=? q') && (0 <=? u'))%bool eqn:Hb; [|discriminate].
  injection H as -> -> ->.
  apply andb_true_iff in Hb. destruct Hb as [Hb Hu'].
  apply andb_true_iff in Hb. destruct Hb as [Hp' Hq'].
  apply Z.leb_le in Hp', Hq', Hu'.
  repeat split; auto using toZ_ofZ.
Qed.

Lemma volume_pos t : 0 < volume t.
Proof.
  unfold volume. destruct (amounts t) as [[[p q] u]|] eqn:H; [|reflexivity].
  apply amounts_sound in H. nia.
Qed.

Lemma volume_exact t :
  volume t < 2 ^ 53 ->
  exists p q u, amounts t = Some (p, q, u) /\ volume t = (p + u + 1) * (q + 1).
Proof.
  unfold volume. destruct (amounts t) as [[[p q] u]|] eqn:H; [|lia].
  intros _. exists p, q, u. split; reflexivity.
Qed.

Lemma totalVolume_nonneg ts : 0 <= totalVolume ts.
Proof.
  induction ts as [|t ts IH]; [reflexivity|].
  unfold totalVolume in *. simpl. pose proof (volume_pos t). lia.
Qed.

(** One step of the reducer on integral amounts. *)
Lemma statsStep_exact t S C P N B p q u :
  amounts t = Some (p, q, u) ->
  0 <= S <= B -> 0 <= C <= B -> Z.abs P <= B -> 0 <= N <= B ->
  B + (p + u + 1) * (q + 1) < 2 ^ 53 ->
  statsStep (statsZ S C P N) t
  = statsZ (S + p * q) (C + u * q) (P + (p * q - u * q)) (N + q).
Proof.
  intros HA HS HC HP HN HB.
  destruct (amounts_sound _ _ _ _ HA) as (Ep & Eq & Eu & Hp & Hq & Hu).
  unfold statsStep, statsZ. cbn [totalSales totalCost totalProfit itemCount].
  rewrite Ep, Eq, Eu.
  rewrite !mul_exact by safe_bound.
  rewrite sub_exact by safe_bound.
  rewrite !add_exact by safe_bound.
  reflexivity.
Qed.

Lemma amountsOr0_exact t p q u :
  amounts t = Some (p, q, u) ->
  salesZ t = p * q /\ costZ t = u * q /\ profitZ t = p * q - u * q /\ countZ t = q.
Proof.
  intros H. unfold profitZ, salesZ, costZ, countZ, amountsOr0. rewrite H. auto.
Qed.

(** The reducer on a ledger of integral amounts, from any exact
    accumulator that leaves room for the ledger's volume. *)
Lemma fold_statsStep_exact ts :
  forall S C P N B,
    0 <= S <= B -> 0 <= C <= B -> Z.abs P <= B -> 0 <= N <= B ->
    B + totalVolume ts < 2 ^ 53 ->
    fold_left statsStep ts (statsZ S C P N)
    = statsZ (S + sumZ salesZ ts) (C + sumZ costZ ts)
             (P + sumZ profitZ ts) (N + sumZ countZ ts).
Proof.
  induction ts as [|t ts IH]; intros S C P N B HS HC HP HN HB.
  - unfold sumZ. simpl. rewrite !Z.add_0_r. reflexivity.
  - change (totalVolume (t :: ts)) with (volume t + totalVolume ts) in HB.
    pose proof (totalVolume_nonneg ts) as Hts.
    destruct (volume_exact t) as (p & q & u & HA & HV); [lia|].
    destruct (amounts_sound _ _ _ _ HA) as (_ & _ & _ & Hp & Hq & Hu).
    destruct (amountsOr0_exact _ _ _ _ HA) as (Es & Ec & Ep & En).
    cbn [fold_left].
    rewrite (statsStep_exact t S C P N B p q u) by (auto; lia).
    rewrite (IH _ _ _ _ (B + volume t)) by (rewrite ?HV; nia).
    unfold sumZ. cbn [map fold_right]. rewrite Es, Ec, Ep, En.
    f_equal; lia.
Qed.

Lemma stats_exact ts :
  exactLedger ts = true ->
  stats ts = statsZ (sumZ salesZ ts) (sumZ costZ ts) (sumZ profitZ ts) (sumZ countZ ts).
Proof.
  unfold exactLedger. intros H. apply Z.ltb_lt in H.
  unfold stats. change {| totalSales := 0%float; totalCost := 0%float;
                          totalProfit := 0%float; itemCount := 0%float |}
                  with (statsZ 0 0 0 0).
  rewrite (fold_statsStep_exact ts 0 0 0 0 0) by (simpl; lia).
  reflexivity.
Qed.

Lemma sumZ_permutation f ts ts' : Permutation ts ts' -> sumZ f ts = sumZ f ts'.
Proof.
  unfold sumZ. induction 1; cbn [map fold_right]; lia.
Qed.

Lemma exactLedger_permutation ts ts' :
  Permutation ts ts' -> exactLedger ts = exactLedger ts'.
Proof.
  intros H. unfold exactLedger, totalVolume.
  change (fold_right Z.add 0 (map volume ts)) with (sumZ volume ts).
  change (fold_right Z.add 0 (map volume ts')) with (sumZ volume ts').
  rewrite (sumZ_permutation volume ts ts' H). reflexivity.
Qed.

(** On integral amounts the two ways of computing a transaction's total
    profit meet: both are the integer [p*q - u*q]. *)
Lemma totalProfit_exact t :
  exactTx t = true ->
  PrimFloat.mul (PrimFloat.sub (priceSold t)
                   (Math_round (PrimFloat.mul (costJpy t) (exchangeRate t))))
                (quantity t)
  = ofZ (profitZ t)
  /\
  PrimFloat.sub (PrimFloat.mul (priceSold t) (quantity t))
                (PrimFloat.mul (Math_round (PrimFloat.mul (costJpy t) (exchangeRate t)))
                               (quantity t))
  = ofZ (profitZ t).
Proof.
  unfold exactTx. intros H. apply Z.ltb_lt in H.
  destruct (volume_exact t H) as (p & q & u & HA & HV). rewrite HV in H.
  destruct (amounts_sound _ _ _ _ HA) as (Ep & Eq & Eu & Hp & Hq & Hu).
  destruct (amountsOr0_exact _ _ _ _ HA) as (_ & _ & -> & _).
  rewrite Ep, Eq, Eu. split.
  - rewrite sub_exact by safe_bound.
    rewrite mul_exact by safe_bound.
    f_equal. ring.
  - rewrite !mul_exact by safe_bound.
    rewrite sub_exact by safe_bound. reflexivity.
Qed.

(** * Properties of the ledger *)

Local Open Scope string_scope.
Local Open Scope float_scope.

(** ** Transaction derivation *)

(** C1, as stated, fails on the CSV path: for 3 pieces sold at 10.9 with
    unit cost 10 the CSV computes [10.9*3 - 10*3], which is not the
    binary64 value of [(10.9 - 10) * 3]. *)
Lemma C1_csv_total_profit_counterexample :
  Csv.localCostPerUnit txFraction = 10 /\
  Csv.totalProfit txFraction = 2.700000000000003 /\
  (priceSold txFraction - Csv.localCostPerUnit txFraction) * quantity txFraction
  = 2.700000000000001 /\
  Csv.totalProfit txFraction
  <> (priceSold txFraction - Csv.localCostPerUnit txFraction) * quantity txFraction.
Proof.
  repeat split; try (vm_compute; reflexivity).
  intros H. apply (f_equal Prim2SF) in H. vm_compute in H. discriminate.
Qed.

(** C1 (amended): every presentation derives the unit local cost as
    [round (costForeign * exchangeRate)], rounded once before any
    multiplication by the quantity; the table and the clipboard derive
    the total profit as [(priceSold - unitLocalCost) * quantity]; the
    CSV derives it as [priceSold * quantity - unitLocalCost * quantity],
    which is the same Number whenever the amounts are integral and
    within the safe range. *)
Theorem C1_derivation (t : Transaction) :
  let u := Math_round (costJpy t * exchangeRate t) in
  (Table.localCostUnit t = u /\ Clipboard.localCostUnit t = u /\
   Csv.localCostPerUnit t = u /\ Csv.localCostTotal t = u * quantity t) /\
  Table.totalProfit t = (priceSold t - u) * quantity t /\
  Clipboard.totalProfit t = (priceSold t - u) * quantity t /\
  Csv.totalProfit t = priceSold t * quantity t - u * quantity t /\
  (exactTx t = true -> Csv.totalProfit t = (priceSold t - u) * quantity t).
Proof.
  cbv zeta. repeat split.
  intros H. destruct (totalProfit_exact t H) as [H1 H2].
  unfold Csv.totalProfit, Csv.totalSales, Csv.localCostTotal, Csv.localCostPerUnit.
  rewrite H1, H2. reflexivity.
Qed.

Lemma C1_derivation_witness :
  exactTx txKR = true /\
  Csv.totalProfit txKR
  = (priceSold txKR - Math_round (costJpy txKR * exchangeRate txKR)) * quantity txKR.
Proof.
  assert (E : exactTx txKR = true) by (vm_compute; reflexivity).
  split; [exact E|].
  destruct (C1_derivation txKR) as (_ & _ & _ & _ & H).
  apply H, E.
Defined.

(** ** Ledger aggregator *)

Lemma fold_statsStep_sums ts :
  forall acc,
    fold_left statsStep ts acc
    = {| totalSales :=
           fold_left PrimFloat.add
             (map (fun t => priceSold t * quantity t) ts) (totalSales acc);
         totalCost :=
           fold_left PrimFloat.add
             (map (fun t => Math_round (costJpy t * exchangeRate t) * quantity t) ts)
             (totalCost acc);
         totalProfit :=
           fold_left PrimFloat.add
             (map (fun t => Spec.totalProfit (Spec.derive t)) ts) (totalProfit acc);
         itemCount := fold_left PrimFloat.add (map quantity ts) (itemCount acc) |}.
Proof.
  induction ts as [|t ts IH]; intros acc.
  - destruct acc. reflexivity.
  - cbn [fold_left map]. rewrite IH. reflexivity.
Qed.

(** C2: [stats] is the fold of the per-transaction derivation: each
    total is the left-to-right sum, from zero, of the derived amounts
    (sales [priceSold * quantity], cost [round (costForeign *
    exchangeRate) * quantity], profit as derived, count [quantity]),
    and the single-transaction KR ledger aggregates to 60, 40, 20, 2. *)
Theorem C2_stats_folds_derive :
  (forall ts,
      stats ts
      = {| totalSales := Spec.sum (map (fun t => priceSold t * quantity t) ts);
           totalCost :=
             Spec.sum (map (fun t => Math_round (costJpy t * exchangeRate t)
                                     * quantity t) ts);
           totalProfit := Spec.sum (map (fun t => Spec.totalProfit (Spec.derive t)) ts);
           itemCount := Spec.sum (map quantity ts) |}) /\
  (forall t,
      Spec.totalSales (Spec.derive t) = priceSold t * quantity t /\
      Spec.totalCost (Spec.derive t)
      = Math_round (costJpy t * exchangeRate t) * quantity t /\
      Spec.totalProfit (Spec.derive t)
      = Spec.totalSales (Spec.derive t) - Spec.totalCost (Spec.derive t)) /\
  Spec.unitLocalCost (Spec.derive txKR) = 20 /\
  Spec.unitProfit (Spec.derive txKR) = 10 /\
  Spec.totalProfit (Spec.derive txKR) = 20 /\
  stats [txKR]
  = {| totalSales := 60; totalCost := 40; totalProfit := 20; itemCount := 2 |}.
Proof.
  split; [|split; [|repeat split; vm_compute; reflexivity]].
  - intros ts. unfold stats, Spec.sum. apply fold_statsStep_sums.
  - intros t. repeat split.
Qed.

(** ** Agreement of the presentations *)

(** C3, as stated, fails: for 3 pieces sold at 22.1 with unit cost 10
    the table and the clipboard show a total profit of
    36.300000000000004 and the CSV one of 36.30000000000001. *)
Lemma C3_presentations_counterexample :
  Table.totalProfit txFraction2 = 36.300000000000004 /\
  Clipboard.totalProfit txFraction2 = 36.300000000000004 /\
  Csv.totalProfit txFraction2 = 36.30000000000001 /\
  Csv.totalProfit txFraction2 <> Table.totalProfit txFraction2.
Proof.
  repeat split; try (vm_compute; reflexivity).
  intros H. apply (f_equal Prim2SF) in H. vm_compute in H. discriminate.
Qed.

(** C3 (amended): the three presentations compute the same unit local
    cost for every transaction, the table and the clipboard compute the
    same total profit, and the CSV's total profit is that same Number
    whenever the transaction's amounts are integral and within the safe
    range. *)
Theorem C3_presentations_agree (t : Transaction) :
  Table.localCostUnit t = Clipboard.localCostUnit t /\
  Clipboard.localCostUnit t = Csv.localCostPerUnit t /\
  Table.totalProfit t = Clipboard.totalProfit t /\
  (exactTx t = true ->
   Csv.totalProfit t = Table.totalProfit t /\
   Csv.totalProfit t = Clipboard.totalProfit t /\
   Csv.totalProfit t = ofZ (profitZ t)).
Proof.
  repeat split; intros; destruct (totalProfit_exact t H) as [H1 H2];
    unfold Csv.totalProfit, Csv.totalSales, Csv.localCostTotal, Csv.localCostPerUnit,
      Table.totalProfit, Table.localCostUnit,
      Clipboard.totalProfit, Clipboard.localCostUnit;
    rewrite ?H1, ?H2; reflexivity.
Qed.

Lemma C3_presentations_agree_witness :
  exactTx txHalf = true /\
  Csv.totalProfit txHalf = Table.totalProfit txHalf /\
  Csv.totalProfit txHalf = Clipboard.totalProfit txHalf /\
  Csv.totalProfit txHalf = ofZ (profitZ txHalf).
Proof.
  assert (E : exactTx txHalf = true) by (vm_compute; reflexivity).
  split; [exact E|].
  destruct (C3_presentations_agree txHalf) as (_ & _ & _ & H).
  apply H, E.
Defined.

(** ** Order of aggregation *)

(** C4, as stated, fails: three sales of one piece at 0.1, 0.2 and 0.3
    total 0.6000000000000001 in that order and 0.6 in the reverse
    order. *)
Lemma C4_order_counterexample :
  Permutation [txDime1; txDime2; txDime3] [txDime3; txDime2; txDime1] /\
  totalSales (stats [txDime1; txDime2; txDime3]) = 0.6000000000000001 /\
  totalSales (stats [txDime3; txDime2; txDime1]) = 0.6 /\
  stats [txDime3; txDime2; txDime1] <> stats [txDime1; txDime2; txDime3].
Proof.
  split; [|repeat split; try (vm_compute; reflexivity)].
  - apply (Permutation_rev [txDime1; txDime2; txDime3]).
  - intros H. apply (f_equal totalSales) in H.
    apply (f_equal Prim2SF) in H. vm_compute in H. discriminate.
Qed.

(** C4 (amended): on a ledger of integral amounts within the safe range
    (prices and unit costs non-negative integers, quantities positive
    integers, volumes adding up to less than 2^53) aggregation does not
    depend on the order: every permutation yields the same
    [SummaryStats]. *)
Theorem C4_stats_permutation (ts ts' : list Transaction) :
  Permutation ts ts' -> exactLedger ts = true -> stats ts' = stats ts.
Proof.
  intros HP HE.
  assert (HE' : exactLedger ts' = true)
    by (rewrite <- (exactLedger_permutation ts ts' HP); exact HE).
  rewrite (stats_exact ts HE), (stats_exact ts' HE').
  rewrite (sumZ_permutation salesZ ts ts' HP), (sumZ_permutation costZ ts ts' HP),
    (sumZ_permutation profitZ ts ts' HP), (sumZ_permutation countZ ts ts' HP).
  reflexivity.
Qed.

Lemma C4_stats_permutation_witness :
  Permutation [txKR; txNoCountry; txHalf] [txHalf; txKR; txNoCountry] /\
  exactLedger [txKR; txNoCountry; txHalf] = true /\
  stats [txHalf; txKR; txNoCountry] = stats [txKR; txNoCountry; txHalf].
Proof.
  assert (P : Permutation [txKR; txNoCountry; txHalf] [txHalf; txKR; txNoCountry])
    by apply Permutation_sym, (Permutation_cons_append [txKR; txNoCountry] txHalf).
  assert (E : exactLedger [txKR; txNoCountry; txHalf] = true) by (vm_compute; reflexivity).
  split; [exact P|split; [exact E|]].
  apply (C4_stats_permutation _ _ P E).
Defined.

(** ** Ledger store *)

Lemma truthyString_true s : truthyString s = true <-> s <> "".
Proof.
  unfold truthyString. rewrite negb_true_iff. split.
  - intros H E. apply String.eqb_neq in H. contradiction.
  - apply String.eqb_neq.
Qed.

Lemma transactions_remove i st :
  transactions (remove i st)
  = if truthyString i
    then filter (fun t => negb (String.eqb (id t) i)) (transactions st)
    else transactions st.
Proof. reflexivity. Qed.

Lemma filter_id_absent i ts :
  (forall t, In t ts -> id t <> i) ->
  filter (fun t => negb (String.eqb (id t) i)) ts = ts.
Proof.
  induction ts as [|t ts IH]; intros H; [reflexivity|].
  cbn [filter].
  assert (E : String.eqb (id t) i = false) by (apply String.eqb_neq, H; left; reflexivity).
  rewrite E. cbn [negb]. f_equal. apply IH. intros t' Ht'. apply H. right. exact Ht'.
Qed.

Lemma filter_twice {A} (f : A -> bool) l : filter f (filter f l) = filter f l.
Proof.
  induction l as [|a l IH]; [reflexivity|].
  cbn [filter]. destruct (f a) eqn:E; [|exact IH].
  cbn [filter]. rewrite E, IH. reflexivity.
Qed.

(** C5, as stated, fails at the empty id: the confirmation handler only
    filters when the recorded target is truthy, so a record whose id is
    the empty string is not deleted by removing that id. *)
Lemma C5_empty_id_counterexample :
  id txNoId = "" /\
  transactions (remove "" (idle [txNoId; txKR])) = [txNoId; txKR].
Proof. split; reflexivity. Qed.

(** C5 (amended): for every ledger and every non-empty id, [remove]
    keeps, in order, exactly the transactions whose id differs from the
    given id as text; for every id it leaves the ledger unchanged when
    no transaction has that id, and removing the same id twice yields
    the same state as removing it once. *)
Theorem C5_remove (st : AppState) (i : string) :
  (i <> "" ->
   transactions (remove i st)
   = filter (fun t => negb (String.eqb (id t) i)) (transactions st) /\
   forall t, In t (transactions (remove i st))
             <-> In t (transactions st) /\ id t <> i) /\
  ((forall t, In t (transactions st) -> id t <> i) ->
   transactions (remove i st) = transactions st) /\
  remove i (remove i st) = remove i st.
Proof.
  split; [|split].
  - intros Hi. apply truthyString_true in Hi.
    rewrite transactions_remove, Hi. split; [reflexivity|].
    intros t. rewrite filter_In, negb_true_iff, String.eqb_neq. reflexivity.
  - intros H. rewrite transactions_remove.
    destruct (truthyString i); [apply filter_id_absent, H | reflexivity].
  - unfold remove, executeDelete, handleDeleteTransaction.
    cbn [modalConfig type targetId transactions].
    destruct (truthyString i); [|reflexivity].
    rewrite filter_twice. reflexivity.
Qed.

Lemma C5_remove_witness :
  transactions (remove "k1" (idle [txHalf; txKR; txNoCountry])) = [txHalf; txNoCountry] /\
  transactions (remove "zz" (idle [txHalf; txKR])) = [txHalf; txKR].
Proof.
  split.
  - destruct (C5_remove (idle [txHalf; txKR; txNoCountry]) "k1") as (H & _ & _).
    destruct H as [H _]; [discriminate|]. rewrite H. reflexivity.
  - destruct (C5_remove (idle [txHalf; txKR]) "zz") as (_ & H & _).
    apply H. intros t [<-|[<-|[]]]; discriminate.
Defined.

(** C6: [clear] empties the ledger whatever the state, and the cleared
    ledger aggregates to zero sales, cost, profit and count. *)
Theorem C6_clear (st : AppState) :
  transactions (clear st) = [] /\
  stats (transactions (clear st))
  = {| totalSales := 0; totalCost := 0; totalProfit := 0; itemCount := 0 |}.
Proof. split; reflexivity. Qed.

(** ** Country table *)


Lemma propertyAccess_own {A} (obj : list (string * A)) k v :
  getProp obj k = Some v -> propertyAccess obj k = OwnValue v.
Proof. intros H. unfold propertyAccess. rewrite H. reflexivity. Qed.




(** ** Export formatter *)

Lemma not_quoteWrapped_label : ~ quoteWrapped "韓國".
Proof. intros [body H]. discriminate H. Qed.

(** C8, as stated, fails on the quoting: the country label is a
    string-valued field of every CSV row and is written without
    quotes. *)
Lemma C8_bare_label_counterexample :
  (forall numberToString toLocaleDateString,
      nth_error (textCells (csvCells numberToString toLocaleDateString txKR)) 1
      = Some "韓國") /\
  ~ quoteWrapped "韓國".
Proof. split; [reflexivity | exact not_quoteWrapped_label]. Qed.

Lemma csv_label_is_getCountryLabel c :
  (if countryIs c "KR" then "韓國"
   else if countryIs c "OTHER" then "其他" else "日本")
  = getCountryLabel c.
Proof.
  unfold getCountryLabel. destruct c as [s|]; [|reflexivity]. cbn [countryIs].
  destruct (String.eqb s "JP") eqn:E; [|reflexivity].
  apply String.eqb_eq in E. subst s. reflexivity.
Qed.

(** C8 (amended): the clipboard lists the transactions newest first (row
    [i] renders the transaction at position [length - 1 - i] of the
    ledger), the CSV lists them in ledger order (row [i] renders the
    transaction at position [i]); in a CSV row the customer name, the
    item name and the five currency-prefixed amounts are each wrapped in
    double quotes, while the date, the country label and the empty
    selling-rate placeholder are written bare. *)
Theorem C8_export_order_and_quoting
    (numberToString : number -> string) (toLocaleDateString : string -> string)
    (ts : list Transaction) :
  let clipRow t := join numberToString tab (clipboardCells numberToString toLocaleDateString t) in
  let csvRow t := join numberToString "," (csvCells numberToString toLocaleDateString t) in
  (forall i,
      nth_error (clipboardRows numberToString toLocaleDateString ts) i
      = if Nat.ltb i (List.length ts)
        then option_map clipRow (nth_error ts (List.length ts - S i))
        else None) /\
  (forall i,
      nth_error (csvRows numberToString toLocaleDateString ts) i
      = option_map csvRow (nth_error ts i)) /\
  (forall t,
      textCells (csvCells numberToString toLocaleDateString t)
      = List.app
          [ toLocaleDateString (date t);
            getCountryLabel (country t);
            quoteWrap (customerName t);
            quoteWrap (itemName t);
            quoteWrap (getCurrencySymbol (country t) ++ numberToString (costJpy t)) ]
          (List.app
             (textCells [sellingRateOr "" t])
             [ quoteWrap ("$" ++ numberToString (Csv.localCostPerUnit t));
               quoteWrap ("$" ++ numberToString (priceSold t));
               quoteWrap ("$" ++ numberToString (Csv.profitPerUnit t));
               quoteWrap ("$" ++ numberToString (Csv.totalProfit t)) ])) /\
  (forall t,
      Forall (fun s => s = "") (textCells [sellingRateOr "" t]) /\
      Forall quoteWrapped
        [ quoteWrap (customerName t);
          quoteWrap (itemName t);
          quoteWrap (getCurrencySymbol (country t) ++ numberToString (costJpy t));
          quoteWrap ("$" ++ numberToString (Csv.localCostPerUnit t));
          quoteWrap ("$" ++ numberToString (priceSold t));
          quoteWrap ("$" ++ numberToString (Csv.profitPerUnit t));
          quoteWrap ("$" ++ numberToString (Csv.totalProfit t)) ] /\
      ~ quoteWrapped (getCountryLabel (country t))).
Proof.
  cbv zeta. split; [|split; [|split]].
  - intros i. unfold clipboardRows.
    rewrite nth_error_map, nth_error_rev.
    destruct (Nat.ltb i (List.length ts)); reflexivity.
  - intros i. unfold csvRows. apply nth_error_map.
  - intros t. unfold csvCells.
    rewrite !csv_label_is_getCountryLabel.
    assert (E : (if countryIs (country t) "KR" then "₩"
                 else if countryIs (country t) "OTHER" then "$" else "¥")
                = getCurrencySymbol (country t)).
    { unfold getCurrencySymbol. destruct (country t) as [s|]; [|reflexivity].
      cbn [countryIs]. destruct (String.eqb s "JP") eqn:E; [|reflexivity].
      apply String.eqb_eq in E. subst s. reflexivity. }
    rewrite E. cbn [textCells app]. destruct (sellingRateOr "" t); reflexivity.
  - intros t. split; [|split].
    + unfold sellingRateOr. destruct (sellingExchangeRate t) as [r|]; cbn [textCells].
      * destruct (truthy r); cbn [textCells]; repeat constructor.
      * repeat constructor.
    + repeat constructor; eexists; reflexivity.
    + unfold getCountryLabel.
      destruct (countryIs _ "JP"); [|destruct (countryIs _ "KR"); [|destruct (countryIs _ "OTHER")]];
        intros [body H]; discriminate H.
Qed.

(** ** Entry form *)

(** C9: a submission whose customer name or item name is empty does not
    invoke the add callback and leaves the state (and the form) as they
    were; with both names non-empty it appends exactly one new
    transaction, built from the form, at the end of the ledger. *)
Theorem C9_submit_validation
    (parseInt parseFloat : string -> number) (country : string)
    (formData : Form.FormData) (freshId nowISO : string) (st : AppState) :
  (Form.customerName formData = "" \/ Form.itemName formData = "" ->
   (forall onAddTransaction,
       Form.handleSubmit parseInt parseFloat onAddTransaction
         country formData freshId nowISO st = (st, formData)) /\
   fst (submit parseInt parseFloat country formData freshId nowISO st) = st) /\
  (Form.customerName formData <> "" -> Form.itemName formData <> "" ->
   exists t,
     fst (submit parseInt parseFloat country formData freshId nowISO st)
     = {| transactions := transactions st ++ [t]; modalConfig := modalConfig st |} /\
     List.length (transactions
               (fst (submit parseInt parseFloat country formData freshId nowISO st)))
     = S (List.length (transactions st)) /\
     id t = freshId /\
     customerName t = Form.customerName formData /\
     itemName t = Form.itemName formData).
Proof.
  split.
  - intros H.
    assert (E : negb (truthyString (Form.customerName formData))
                || negb (truthyString (Form.itemName formData)) = true).
    { destruct H as [-> | ->]; [reflexivity|]. apply orb_true_r. }
    split; [intros cb|]; unfold submit, Form.handleSubmit; rewrite E; reflexivity.
  - intros H1 H2. apply truthyString_true in H1, H2.
    unfold submit, Form.handleSubmit. rewrite H1, H2. cbn [negb orb fst].
    eexists. split; [reflexivity|].
    unfold handleAddTransaction. cbn [transactions].
    rewrite List.length_app, Nat.add_comm. repeat split.
Qed.

Lemma C9_submit_validation_witness :
  let blank := Form.mkForm "2024-01-15" "" "合力他命" "1" "100" "0.2" "0.28" "30" in
  let filled := Form.mkForm "2024-01-15" "王小明" "合力他命" "1" "100" "0.2" "0.28" "30" in
  fst (submit (fun _ => 1) (fun _ => 100) "JP" blank "id1" "now" (idle [txKR]))
  = idle [txKR] /\
  List.length (transactions
            (fst (submit (fun _ => 1) (fun _ => 100) "JP" filled "id1" "now" (idle [txKR]))))
  = 2%nat.
Proof.
  cbv zeta. split.
  - apply (C9_submit_validation (fun _ => 1) (fun _ => 100) "JP"
             (Form.mkForm "2024-01-15" "" "合力他命" "1" "100" "0.2" "0.28" "30")
             "id1" "now" (idle [txKR])).
    left. reflexivity.
  - destruct (C9_submit_validation (fun _ => 1) (fun _ => 100) "JP"
                (Form.mkForm "2024-01-15" "王小明" "合力他命" "1" "100" "0.2" "0.28" "30")
                "id1" "now" (idle [txKR])) as [_ H].
    destruct H as (t & _ & L & _); [discriminate | discriminate |].
    exact L.
Defined.

(** ** Outbound analysis summary *)

(** C10, as stated, fails on its last part: a product [costForeign *
    exchangeRate] that is not an integer need not change the profit.
    For one piece sold at 1000 with cost 1e-20 the product is not
    integral, yet the summary's profit and the rendered total profits
    are all 1000. *)
Lemma C10_absorbed_cost_counterexample :
  toZ (costJpy txTiny * exchangeRate txTiny) = None /\
  Math_round (costJpy txTiny * exchangeRate txTiny) = 0 /\
  Analysis.profit (Analysis.entry txTiny) = 1000 /\
  Table.totalProfit txTiny = 1000 /\
  Clipboard.totalProfit txTiny = 1000 /\
  Csv.totalProfit txTiny = 1000.
Proof. repeat split; vm_compute; reflexivity. Qed.

(** C10 (amended): the profit placed in the analysis summary is
    [(priceSold - costForeign * exchangeRate) * quantity], with no
    unit-level rounding; it is the total profit of the table and of the
    clipboard whenever the product is already integral (rounding leaves
    it unchanged), and it differs from every rendered total profit for
    2 pieces at 1025 won, rate 0.02, sold at 30 (19 against 18). *)
Theorem C10_analysis_profit :
  (forall t,
      Analysis.profit (Analysis.entry t)
      = (priceSold t - costJpy t * exchangeRate t) * quantity t) /\
  (forall t,
      Math_round (costJpy t * exchangeRate t) = costJpy t * exchangeRate t ->
      Analysis.profit (Analysis.entry t) = Table.totalProfit t /\
      Analysis.profit (Analysis.entry t) = Clipboard.totalProfit t) /\
  (costJpy txHalf * exchangeRate txHalf = 20.5 /\
   Analysis.profit (Analysis.entry txHalf) = 19 /\
   Table.totalProfit txHalf = 18 /\
   Clipboard.totalProfit txHalf = 18 /\
   Csv.totalProfit txHalf = 18).
Proof.
  split; [reflexivity|split].
  - intros t H.
    unfold Table.totalProfit, Table.localCostUnit,
      Clipboard.totalProfit, Clipboard.localCostUnit.
    rewrite H. split; reflexivity.
  - repeat split; vm_compute; reflexivity.
Qed.

Lemma C10_analysis_profit_witness :
  Math_round (costJpy txKR * exchangeRate txKR) = costJpy txKR * exchangeRate txKR /\
  Analysis.profit (Analysis.entry txKR) = Table.totalProfit txKR /\
  Analysis.profit (Analysis.entry txKR) = Clipboard.totalProfit txKR.
Proof.
  assert (E : Math_round (costJpy txKR * exchangeRate txKR)
              = costJpy txKR * exchangeRate txKR) by (vm_compute; reflexivity).
  split; [exact E|].
  destruct C10_analysis_profit as (_ & H & _).
  apply (H txKR E).
Defined.

(** * Further properties of the store *)

Lemma filter_comm {A} (f g : A -> bool) l :
  filter f (filter g l) = filter g (filter f l).
Proof.
  induction l as [|a l IH]; [reflexivity|].
  cbn [filter]. destruct (f a) eqn:Ef, (g a) eqn:Eg; cbn [filter];
    rewrite ?Ef, ?Eg, IH; reflexivity.
Qed.

(** X1: removals commute: removing two ids in either order leaves the
    same state. *)
Theorem X1_remove_commute (i j : string) (st : AppState) :
  remove i (remove j st) = remove j (remove i st).
Proof.
  unfold remove, executeDelete, handleDeleteTransaction.
  cbn [modalConfig type targetId transactions].
  destruct (truthyString i), (truthyString j); try reflexivity.
  rewrite filter_comm. reflexivity.
Qed.

(** X2: adding a transaction whose id is non-empty and not yet in the
    ledger, then removing that id, gives back the ledger as it was. *)
Theorem X2_add_then_remove (t : Transaction) (st : AppState) :
  id t <> "" ->
  (forall t', In t' (transactions st) -> id t' <> id t) ->
  transactions (remove (id t) (handleAddTransaction t st)) = transactions st.
Proof.
  intros Hid Hfresh. apply truthyString_true in Hid.
  rewrite transactions_remove, Hid.
  unfold handleAddTransaction. cbn [transactions].
  rewrite filter_app, (filter_id_absent _ _ Hfresh).
  cbn [filter]. rewrite String.eqb_refl. cbn [negb]. apply app_nil_r.
Qed.

Lemma X2_add_then_remove_witness :
  transactions (remove (id txHalf) (handleAddTransaction txHalf (idle [txKR; txNoCountry])))
  = [txKR; txNoCountry].
Proof.
  apply (X2_add_then_remove txHalf (idle [txKR; txNoCountry])).
  - discriminate.
  - intros t' [<-|[<-|[]]]; discriminate.
Defined.

Lemma NoDup_map_filter {A B} (g : A -> B) (f : A -> bool) l :
  NoDup (map g l) -> NoDup (map g (filter f l)).
Proof.
  induction l as [|a l IH]; intros H; [exact H|].
  cbn [map] in H. inversion H as [|x xs Hnotin Hnd]; subst.
  cbn [filter]. destruct (f a); [|apply IH, Hnd].
  cbn [map]. constructor; [|apply IH, Hnd].
  intros Hin. apply Hnotin. apply in_map_iff in Hin.
  destruct Hin as (y & Hy & Hiny). apply filter_In in Hiny.
  apply in_map_iff. exists y. split; [exact Hy | apply Hiny].
Qed.

(** X3: uniqueness of ids is an invariant of the store: if no two
    transactions share an id, the same holds after confirming any
    pending request (single deletion or clear), after a removal, and
    after adding a transaction whose id is not yet in the ledger. *)
Theorem X3_unique_ids_invariant (st : AppState) :
  NoDup (map id (transactions st)) ->
  NoDup (map id (transactions (executeDelete st))) /\
  (forall i, NoDup (map id (transactions (remove i st)))) /\
  NoDup (map id (transactions (clear st))) /\
  (forall t, ~ In (id t) (map id (transactions st)) ->
             NoDup (map id (transactions (handleAddTransaction t st)))).
Proof.
  intros H. split; [|split; [|split]].
  - unfold executeDelete. cbn [transactions].
    destruct (type (modalConfig st)) as [[|]|]; [| constructor | exact H].
    destruct (targetId (modalConfig st)) as [target|]; [|exact H].
    destruct (truthyString target); [apply NoDup_map_filter, H | exact H].
  - intros i. rewrite transactions_remove.
    destruct (truthyString i); [apply NoDup_map_filter, H | exact H].
  - constructor.
  - intros t Hfresh. unfold handleAddTransaction. cbn [transactions].
    rewrite map_app. cbn [map].
    apply NoDup_app; [exact H | repeat constructor; intros [] |].
    intros x Hx [<-|[]]. exact (Hfresh Hx).
Qed.

Lemma X3_unique_ids_invariant_witness :
  NoDup (map id (transactions (remove "k1" (idle [txKR; txHalf])))).
Proof.
  destruct (X3_unique_ids_invariant (idle [txKR; txHalf])) as (_ & H & _).
  - repeat constructor; cbn; intuition discriminate.
  - apply H.
Defined.

Lemma length_filter_unique i ts :
  NoDup (map id ts) ->
  (exists t, In t ts /\ id t = i) ->
  S (List.length (filter (keepOthers i) ts)) = List.length ts.
Proof.
  induction ts as [|a ts IH]; intros Hnd [t [Hin Hid]]; [destruct Hin|].
  cbn [map] in Hnd. inversion Hnd as [|x xs Hnotin Hnd']; subst x xs.
  cbn [filter List.length]. unfold keepOthers at 1.
  destruct (String.eqb (id a) i) eqn:E; cbn [negb].
  - apply String.eqb_eq in E. f_equal.
    assert (F : filter (keepOthers i) ts = ts).
    { apply filter_id_absent. intros t' Ht' Heq. apply Hnotin.
      rewrite E, <- Heq. apply in_map, Ht'. }
    unfold keepOthers in F. unfold keepOthers. rewrite F. reflexivity.
  - cbn [List.length]. f_equal. apply IH; [exact Hnd'|].
    destruct Hin as [<-|Hin].
    + apply String.eqb_neq in E. contradiction.
    + exists t. split; assumption.
Qed.

(** X4: in a ledger with unique ids, removing the (non-empty) id of a
    transaction that is present deletes exactly one transaction. *)
Theorem X4_remove_deletes_one (i : string) (st : AppState) :
  i <> "" ->
  NoDup (map id (transactions st)) ->
  (exists t, In t (transactions st) /\ id t = i) ->
  S (List.length (transactions (remove i st))) = List.length (transactions st).
Proof.
  intros Hi Hnd Hex. apply truthyString_true in Hi.
  rewrite transactions_remove, Hi. apply (length_filter_unique i); assumption.
Qed.

Lemma X4_remove_deletes_one_witness :
  S (List.length (transactions (remove "k1" (idle [txHalf; txKR; txNoCountry])))) = 3%nat.
Proof.
  apply (X4_remove_deletes_one "k1" (idle [txHalf; txKR; txNoCountry])).
  - discriminate.
  - repeat constructor; cbn; intuition discriminate.
  - exists txKR. split; [right; left; reflexivity | reflexivity].
Defined.

(** X5: the two-step protocol around an idle state (no dialog open):
    a request followed by a cancel restores the state exactly, a
    request alone never touches the ledger, and a confirmation with
    nothing pending changes nothing; confirming twice is the same as
    confirming once. *)
Theorem X5_confirmation_protocol (st : AppState) :
  modalConfig st = closedModal ->
  (forall i, cancel (handleDeleteTransaction i st) = st) /\
  cancel (handleClearAllTransactions st) = st /\
  executeDelete st = st /\
  (forall i, executeDelete (remove i st) = remove i st) /\
  executeDelete (clear st) = clear st.
Proof.
  destruct st as [ts m]. cbn [modalConfig]. intros ->.
  repeat split.
Qed.

Lemma X5_confirmation_protocol_witness :
  cancel (handleClearAllTransactions (idle [txKR])) = idle [txKR].
Proof.
  destruct (X5_confirmation_protocol (idle [txKR])) as (_ & H & _);
    [reflexivity | exact H].
Defined.

(** * Further properties of the aggregator *)

(** X6: aggregation is incremental: the statistics after adding a
    transaction are one reducer step from the statistics before, and
    the statistics of two ledgers put end to end are the reduction of
    the second started from the statistics of the first. *)
Theorem X6_stats_incremental :
  (forall t st,
      stats (transactions (handleAddTransaction t st))
      = statsStep (stats (transactions st)) t) /\
  (forall ts ts', stats (List.app ts ts') = fold_left statsStep ts' (stats ts)).
Proof.
  split.
  - intros t st. unfold handleAddTransaction, stats. cbn [transactions].
    rewrite fold_left_app. reflexivity.
  - intros ts ts'. unfold stats. apply fold_left_app.
Qed.

Lemma amounts_bounds t :
  (0 <= salesZ t <= volume t /\ 0 <= costZ t <= volume t /\
   Z.abs (profitZ t) <= volume t /\ 0 <= countZ t <= volume t)%Z.
Proof.
  unfold profitZ, salesZ, costZ, countZ, amountsOr0, volume.
  destruct (amounts t) as [[[p q] u]|] eqn:H.
  - apply amounts_sound in H. nia.
  - cbn. lia.
Qed.

Lemma sums_bounds ts :
  (0 <= sumZ salesZ ts <= totalVolume ts /\ 0 <= sumZ costZ ts <= totalVolume ts /\
   Z.abs (sumZ profitZ ts) <= totalVolume ts /\
   0 <= sumZ countZ ts <= totalVolume ts)%Z.
Proof.
  induction ts as [|t ts IH]; [cbn; lia|].
  unfold sumZ, totalVolume in *. cbn [map fold_right].
  pose proof (amounts_bounds t). lia.
Qed.

Lemma sumZ_profit ts : (sumZ profitZ ts = sumZ salesZ ts - sumZ costZ ts)%Z.
Proof.
  induction ts as [|t ts IH]; [reflexivity|].
  unfold sumZ in *. cbn [map fold_right]. unfold profitZ at 1. lia.
Qed.

Lemma exactTx_member t ts : In t ts -> exactLedger ts = true -> exactTx t = true.
Proof.
  unfold exactLedger, exactTx. intros Hin H. apply Z.ltb_lt in H. apply Z.ltb_lt.
  induction ts as [|a ts IH]; [destruct Hin|].
  change (totalVolume (a :: ts)) with (volume a + totalVolume ts)%Z in H.
  pose proof (totalVolume_nonneg ts). pose proof (volume_pos a).
  destruct Hin as [<-|Hin]; [lia | apply IH; [exact Hin | lia]].
Qed.

(** X7: on a ledger of integral amounts within the safe range the
    statistics carry no rounding error: they are the exact integer
    sums, the total profit is exactly total sales minus total cost, and
    it is also the left-to-right sum of the total profits shown in the
    table rows. *)
Theorem X7_exact_statistics (ts : list Transaction) :
  exactLedger ts = true ->
  stats ts
  = statsZ (sumZ salesZ ts) (sumZ costZ ts) (sumZ profitZ ts) (sumZ countZ ts) /\
  totalProfit (stats ts) = totalSales (stats ts) - totalCost (stats ts) /\
  totalProfit (stats ts) = Spec.sum (map Table.totalProfit ts).
Proof.
  intros H. pose proof (stats_exact ts H) as E.
  split; [exact E|split].
  - rewrite E. unfold statsZ. cbn [totalProfit totalSales totalCost].
    unfold exactLedger in H. apply Z.ltb_lt in H.
    pose proof (sums_bounds ts) as B.
    rewrite sub_exact by (apply safe_lt; lia).
    rewrite sumZ_profit. reflexivity.
  - unfold stats. rewrite fold_statsStep_sums. cbn [totalProfit].
    unfold Spec.sum. f_equal. apply map_ext_in. intros t Hin.
    destruct (totalProfit_exact t (exactTx_member t ts Hin H)) as [H1 H2].
    unfold Table.totalProfit, Table.localCostUnit. cbn. rewrite H1, H2. reflexivity.
Qed.

Lemma X7_exact_statistics_witness :
  exactLedger [txKR; txHalf] = true /\
  totalProfit (stats [txKR; txHalf])
  = totalSales (stats [txKR; txHalf]) - totalCost (stats [txKR; txHalf]).
Proof.
  assert (E : exactLedger [txKR; txHalf] = true) by (vm_compute; reflexivity).
  split; [exact E|].
  destruct (X7_exact_statistics [txKR; txHalf] E) as (_ & H & _). exact H.
Defined.

Lemma totalVolume_filter f ts : (totalVolume (filter f ts) <= totalVolume ts)%Z.
Proof.
  induction ts as [|t ts IH]; [reflexivity|].
  cbn [filter]. pose proof (volume_pos t).
  destruct (f t); unfold totalVolume in *; cbn [map fold_right]; lia.
Qed.

Lemma sumZ_filter_unique (f : Transaction -> Z) t ts :
  NoDup (map id ts) -> In t ts ->
  (sumZ f (filter (keepOthers (id t)) ts) = sumZ f ts - f t)%Z.
Proof.
  induction ts as [|a ts IH]; intros Hnd Hin; [destruct Hin|].
  cbn [map] in Hnd. inversion Hnd as [|x xs Hnotin Hnd']; subst x xs.
  cbn [filter]. unfold keepOthers at 1.
  destruct (String.eqb (id a) (id t)) eqn:E; cbn [negb].
  - apply String.eqb_eq in E.
    assert (a = t).
    { destruct Hin as [|Hin]; [assumption|].
      exfalso. apply Hnotin. rewrite E. apply in_map, Hin. }
    subst a.
    assert (F : filter (keepOthers (id t)) ts = ts).
    { apply filter_id_absent. intros t' Ht' Heq. apply Hnotin.
      rewrite <- Heq. apply in_map, Ht'. }
    rewrite F. unfold sumZ. cbn [map fold_right]. lia.
  - apply String.eqb_neq in E.
    destruct Hin as [->|Hin]; [contradiction|].
    unfold sumZ in *. cbn [map fold_right]. rewrite (IH Hnd' Hin). lia.
Qed.

(** X8: on a ledger of integral amounts with unique ids, deleting a
    transaction keeps the ledger exact and lowers each total by exactly
    that transaction's contribution. *)
Theorem X8_remove_lowers_totals (t : Transaction) (st : AppState) :
  exactLedger (transactions st) = true ->
  NoDup (map id (transactions st)) ->
  In t (transactions st) -> id t <> "" ->
  exactLedger (transactions (remove (id t) st)) = true /\
  stats (transactions (remove (id t) st))
  = statsZ (sumZ salesZ (transactions st) - salesZ t)
           (sumZ costZ (transactions st) - costZ t)
           (sumZ profitZ (transactions st) - profitZ t)
           (sumZ countZ (transactions st) - countZ t).
Proof.
  intros HE Hnd Hin Hid. apply truthyString_true in Hid.
  rewrite transactions_remove, Hid.
  change (fun t0 : Transaction => negb (String.eqb (id t0) (id t)))
    with (keepOthers (id t)).
  assert (HE' : exactLedger (filter (keepOthers (id t)) (transactions st)) = true).
  { unfold exactLedger in *. apply Z.ltb_lt in HE. apply Z.ltb_lt.
    pose proof (totalVolume_filter (keepOthers (id t)) (transactions st)). lia. }
  split; [exact HE'|].
  rewrite (stats_exact _ HE').
  rewrite !(sumZ_filter_unique _ t (transactions st) Hnd Hin). reflexivity.
Qed.

Lemma X8_remove_lowers_totals_witness :
  stats (transactions (remove (id txKR) (idle [txHalf; txKR])))
  = statsZ (sumZ salesZ [txHalf; txKR] - salesZ txKR)
           (sumZ costZ [txHalf; txKR] - costZ txKR)
           (sumZ profitZ [txHalf; txKR] - profitZ txKR)
           (sumZ countZ [txHalf; txKR] - countZ txKR).
Proof.
  apply (X8_remove_lowers_totals txKR (idle [txHalf; txKR])).
  - vm_compute. reflexivity.
  - repeat constructor; cbn; intuition discriminate.
  - right. left. reflexivity.
  - discriminate.
Defined.

Lemma mul_nan_l y : nan * y = nan.
Proof. apply Prim2SF_inj. rewrite mul_spec. reflexivity. Qed.

Lemma sub_nan_l y : nan - y = nan.
Proof. apply Prim2SF_inj. rewrite sub_spec. reflexivity. Qed.

Lemma add_nan_r x : x + nan = nan.
Proof.
  apply Prim2SF_inj. rewrite add_spec.
  change (Prim2SF nan) with S754_nan. destruct (Prim2SF x); reflexivity.
Qed.

Lemma add_nan_l y : nan + y = nan.
Proof. apply Prim2SF_inj. rewrite add_spec. reflexivity. Qed.

Lemma fold_statsStep_nan ts :
  forall acc,
    (totalSales acc = nan /\ totalProfit acc = nan) \/
    (exists t, In t ts /\ priceSold t = nan) ->
    totalSales (fold_left statsStep ts acc) = nan /\
    totalProfit (fold_left statsStep ts acc) = nan.
Proof.
  induction ts as [|a ts IH]; intros acc H.
  - destruct H as [H|[t [[] _]]]. exact H.
  - cbn [fold_left]. apply IH.
    destruct H as [[Hs Hp]|[t [[<-|Hin] Ht]]].
    + left. unfold statsStep. cbn [totalSales totalProfit].
      rewrite Hs, Hp, !add_nan_l. split; reflexivity.
    + left. unfold statsStep. cbn [totalSales totalProfit].
      rewrite Ht, mul_nan_l, sub_nan_l, !add_nan_r. split; reflexivity.
    + right. exists t. split; assumption.
Qed.

(** X9: the reducer does not guard against a price that is not a
    number: one such transaction anywhere in the ledger makes both the
    total sales and the total profit [NaN], whatever the other
    transactions are. *)
Theorem X9_nan_price_poisons_totals (t : Transaction) (ts : list Transaction) :
  In t ts -> priceSold t = nan ->
  totalSales (stats ts) = nan /\ totalProfit (stats ts) = nan.
Proof.
  intros Hin Ht. unfold stats. apply fold_statsStep_nan.
  right. exists t. split; assumption.
Qed.

Lemma X9_nan_price_poisons_totals_witness :
  totalSales (stats [txKR; txNaN; txHalf]) = nan /\
  totalProfit (stats [txKR; txNaN; txHalf]) = nan.
Proof.
  apply (X9_nan_price_poisons_totals txNaN [txKR; txNaN; txHalf]).
  - right. left. reflexivity.
  - reflexivity.
Defined.

(** * Further properties of the entry form *)

Lemma truthy_not_nan x : truthy x = true -> is_nan x = false.
Proof.
  unfold truthy. rewrite negb_true_iff. intros H.
  apply orb_false_iff in H. apply H.
Qed.

Lemma orDefault0_not_nan x : is_nan (orDefault x 0) = false.
Proof.
  unfold orDefault. destruct (truthy x) eqn:E; [apply truthy_not_nan, E | reflexivity].
Qed.

Lemma orDefault1_truthy x : truthy (orDefault x 1) = true.
Proof. unfold orDefault. destruct (truthy x) eqn:E; [exact E | reflexivity]. Qed.

(** X10: a transaction created by the form never carries [NaN] in a
    numeric field and never has a zero or [NaN] quantity, whatever text
    was typed and whatever the parsers return; it carries the selected
    country, a selling rate, and the typed date or, when that is empty,
    the current time. *)
Theorem X10_created_transaction_is_sane
    (parseInt parseFloat : string -> number) (selected : string)
    (formData : Form.FormData) (freshId nowISO : string) (st : AppState) :
  Form.customerName formData <> "" -> Form.itemName formData <> "" ->
  exists t,
    transactions (fst (submit parseInt parseFloat selected formData freshId nowISO st))
    = List.app (transactions st) [t] /\
    truthy (quantity t) = true /\
    is_nan (costJpy t) = false /\
    is_nan (exchangeRate t) = false /\
    is_nan (priceSold t) = false /\
    (exists r, sellingExchangeRate t = Some r /\ is_nan r = false) /\
    country t = Some selected /\
    (date t = Form.date formData \/ (Form.date formData = "" /\ date t = nowISO)).
Proof.
  intros H1 H2. apply truthyString_true in H1, H2.
  unfold submit, Form.handleSubmit. rewrite H1, H2. cbn [negb orb fst].
  eexists. split; [reflexivity|].
  cbn [quantity costJpy exchangeRate priceSold sellingExchangeRate country date].
  split; [apply orDefault1_truthy|].
  repeat (split; [apply orDefault0_not_nan|]).
  split; [eexists; split; [reflexivity | apply orDefault0_not_nan]|].
  split; [reflexivity|].
  unfold truthyString. destruct (String.eqb (Form.date formData) "") eqn:E; cbn [negb].
  - right. apply String.eqb_eq in E. split; [exact E | reflexivity].
  - left. reflexivity.
Qed.

Lemma X10_created_transaction_is_sane_witness :
  exists t,
    transactions
      (fst (submit (fun _ => nan) (fun _ => nan) "KR"
              (sampleForm "王小明" "" "" "") "id1" "now" (idle [txKR])))
    = [txKR; t] /\
    truthy (quantity t) = true /\ is_nan (priceSold t) = false.
Proof.
  destruct (X10_created_transaction_is_sane (fun _ => nan) (fun _ => nan) "KR"
              (sampleForm "王小明" "" "" "") "id1" "now" (idle [txKR]))
    as (t & E & Q & _ & _ & P & _); [discriminate | discriminate |].
  exists t. split; [exact E | split; [exact Q | exact P]].
Defined.

(** X11: a submit clears the two required fields, so submitting the
    form it returns never adds anything: whether the first submit was
    accepted or not, the second leaves the state as the first left it. *)
Theorem X11_resubmit_adds_nothing
    (parseInt parseFloat : string -> number) (selected selected' : string)
    (formData : Form.FormData) (freshId nowISO freshId' nowISO' : string)
    (st : AppState) :
  let first := submit parseInt parseFloat selected formData freshId nowISO st in
  fst (submit parseInt parseFloat selected' (snd first) freshId' nowISO' (fst first))
  = fst first.
Proof.
  cbv zeta. unfold submit, Form.handleSubmit.
  destruct (negb (truthyString (Form.customerName formData))
            || negb (truthyString (Form.itemName formData))) eqn:E.
  - cbn [fst snd]. rewrite E. reflexivity.
  - reflexivity.
Qed.

(** X12: the preview and the record: for an accepted submit the unit
    local cost shown in the preview is the one the table will show for
    the created transaction; the estimated profit is the table's total
    profit when the quantity field parses to a usable number, while for
    a quantity that parses to zero or [NaN] the preview multiplies by 0
    and the record is created with quantity 1. *)
Theorem X12_preview_matches_record
    (parseInt parseFloat : string -> number) (selected : string)
    (formData : Form.FormData) (freshId nowISO : string) (st : AppState) :
  Form.customerName formData <> "" -> Form.itemName formData <> "" ->
  exists t,
    transactions (fst (submit parseInt parseFloat selected formData freshId nowISO st))
    = List.app (transactions st) [t] /\
    Table.localCostUnit t = FormUI.localCostUnit parseFloat formData /\
    (truthy (parseInt (Form.quantity formData)) = true ->
     Table.totalProfit t = FormUI.estimatedProfit parseInt parseFloat formData) /\
    (truthy (parseInt (Form.quantity formData)) = false ->
     quantity t = 1 /\ FormUI.previewQuantity parseInt formData = 0).
Proof.
  intros H1 H2. apply truthyString_true in H1, H2.
  unfold submit, Form.handleSubmit. rewrite H1, H2. cbn [negb orb fst].
  eexists. split; [reflexivity|].
  unfold Table.totalProfit, Table.localCostUnit, FormUI.estimatedProfit,
    FormUI.localCostUnit, FormUI.previewQuantity, FormUI.previewPriceSold,
    FormUI.previewCostForeign, FormUI.previewExchangeRate.
  cbn [quantity costJpy exchangeRate priceSold].
  split; [reflexivity|].
  split; intros Hq; unfold orDefault; rewrite Hq; [reflexivity | split; reflexivity].
Qed.

Lemma X12_preview_matches_record_witness :
  exists t,
    transactions
      (fst (submit sampleParseInt sampleParseFloat "KR"
              (sampleForm "王小明" "2" "1000" "30") "id1" "now" (idle [])))
    = [t] /\
    Table.totalProfit t
    = FormUI.estimatedProfit sampleParseInt sampleParseFloat
        (sampleForm "王小明" "2" "1000" "30").
Proof.
  destruct (X12_preview_matches_record sampleParseInt sampleParseFloat "KR"
              (sampleForm "王小明" "2" "1000" "30") "id1" "now" (idle []))
    as (t & E & _ & H & _); [discriminate | discriminate |].
  exists t. split; [exact E|]. apply H. reflexivity.
Defined.

Lemma InputName_eqb_eq a b : FormUI.InputName_eqb a b = true <-> a = b.
Proof. destruct a, b; cbn; split; intros H; try reflexivity; discriminate. Qed.

Lemma getField_setField n name value prev :
  FormUI.getField n (FormUI.setField name value prev)
  = if FormUI.InputName_eqb n name then value else FormUI.getField n prev.
Proof. destruct n; reflexivity. Qed.

(** X13: what an edit can touch: [handleChange] stores the typed text
    in the edited field, may in addition rewrite the price field, and
    leaves every other field as it was; an edit of any field other than
    the cost and the selling rate changes the edited field only. *)
Theorem X13_handleChange_frame
    (parseFloat : string -> number) (toText : number -> string)
    (name : FormUI.InputName) (value : string) (prev : Form.FormData) :
  (forall n,
      n <> FormUI.in_priceSold ->
      FormUI.getField n (FormUI.handleChange parseFloat toText name value prev)
      = if FormUI.InputName_eqb n name then value else FormUI.getField n prev) /\
  (name <> FormUI.in_costForeign -> name <> FormUI.in_sellingExchangeRate ->
   FormUI.handleChange parseFloat toText name value prev
   = FormUI.setField name value prev).
Proof.
  split.
  - intros n Hn. unfold FormUI.handleChange.
    assert (P : forall v fd,
               FormUI.getField n (FormUI.setField FormUI.in_priceSold v fd)
               = FormUI.getField n fd).
    { intros v fd. rewrite getField_setField.
      destruct (FormUI.InputName_eqb n FormUI.in_priceSold) eqn:E; [|reflexivity].
      apply InputName_eqb_eq in E. contradiction. }
    repeat match goal with
           | |- context [if ?c then _ else _] =>
               lazymatch c with
               | FormUI.InputName_eqb n name => fail
               | _ => destruct c
               end
           end;
      rewrite ?P; apply getField_setField.
  - intros Hc Hs. unfold FormUI.handleChange.
    destruct (FormUI.InputName_eqb name FormUI.in_costForeign) eqn:E1;
      [apply InputName_eqb_eq in E1; contradiction|].
    destruct (FormUI.InputName_eqb name FormUI.in_sellingExchangeRate) eqn:E2;
      [apply InputName_eqb_eq in E2; contradiction|].
    reflexivity.
Qed.

Lemma X13_handleChange_frame_witness :
  FormUI.handleChange sampleParseFloat sampleToText FormUI.in_quantity "2"
    (sampleForm "王小明" "1" "1000" "30")
  = sampleForm "王小明" "2" "1000" "30".
Proof.
  destruct (X13_handleChange_frame sampleParseFloat sampleToText FormUI.in_quantity "2"
              (sampleForm "王小明" "1" "1000" "30")) as [_ H].
  rewrite H; [reflexivity | discriminate | discriminate].
Defined.

(** X14: the price suggestion: typing a cost (or a selling rate) that
    parses, while the other of the two also parses, overwrites the price
    with the text of [round (cost * rate)]; emptying the cost field
    empties the price when the empty text does not parse; a non-empty
    cost that does not parse, or a selling rate that does not parse,
    leaves the price as it was. *)
Theorem X14_price_suggestion
    (parseFloat : string -> number) (toText : number -> string)
    (value : string) (prev : Form.FormData) :
  let typedCost := FormUI.handleChange parseFloat toText FormUI.in_costForeign value prev in
  let typedRate :=
    FormUI.handleChange parseFloat toText FormUI.in_sellingExchangeRate value prev in
  (is_nan (parseFloat value) = false ->
   is_nan (parseFloat (Form.sellingExchangeRate prev)) = false ->
   Form.priceSold typedCost
   = toText (Math_round (parseFloat value * parseFloat (Form.sellingExchangeRate prev)))) /\
  (is_nan (parseFloat (Form.costForeign prev)) = false ->
   is_nan (parseFloat value) = false ->
   Form.priceSold typedRate
   = toText (Math_round (parseFloat (Form.costForeign prev) * parseFloat value))) /\
  (value = "" -> is_nan (parseFloat "") = true -> Form.priceSold typedCost = "") /\
  (value <> "" -> is_nan (parseFloat value) = true ->
   Form.priceSold typedCost = Form.priceSold prev) /\
  (is_nan (parseFloat value) = true -> Form.priceSold typedRate = Form.priceSold prev).
Proof.
  cbv zeta. unfold FormUI.handleChange. cbn [FormUI.InputName_eqb orb andb].
  repeat split.
  - intros H1 H2. rewrite H1, H2. reflexivity.
  - intros H1 H2. rewrite H1, H2. reflexivity.
  - intros -> H. rewrite H. reflexivity.
  - intros Hv H. rewrite H. apply String.eqb_neq in Hv. rewrite Hv. reflexivity.
  - intros H. rewrite H, andb_false_r. reflexivity.
Qed.

Lemma X14_price_suggestion_witness :
  Form.priceSold
    (FormUI.handleChange sampleParseFloat sampleToText FormUI.in_costForeign "1000"
       (sampleForm "王小明" "1" "" ""))
  = "35" /\
  Form.priceSold
    (FormUI.handleChange sampleParseFloat sampleToText FormUI.in_costForeign ""
       (sampleForm "王小明" "1" "1000" "35"))
  = "".
Proof.
  split.
  - destruct (X14_price_suggestion sampleParseFloat sampleToText "1000"
                (sampleForm "王小明" "1" "" "")) as (H & _).
    rewrite H; reflexivity.
  - destruct (X14_price_suggestion sampleParseFloat sampleToText ""
                (sampleForm "王小明" "1" "1000" "35")) as (_ & _ & H & _).
    apply H; reflexivity.
Defined.

Lemma getProp_missing {A} (obj : list (string * A)) k :
  ~ In k (map fst obj) -> getProp obj k = None.
Proof.
  induction obj as [|[k' v] obj IH]; intros H; [reflexivity|].
  cbn [getProp]. destruct (String.eqb k' k) eqn:E.
  - apply String.eqb_eq in E. exfalso. apply H. left. exact E.
  - apply IH. intros Hin. apply H. right. exact Hin.
Qed.

(** X15: every country button the form renders has an entry in the
    table, so choosing it never fails; it selects that country, writes
    the texts of the country's two rates into the rate fields, keeps the
    date, the names, the quantity and the cost, and keeps the price
    unless the cost field holds a positive number, in which case the
    price becomes the text of [round (cost * sellingRate)]. *)
Theorem X15_country_buttons_work
    (parseFloat : string -> number) (toText : number -> string)
    (k : string) (fs : FormUI.FormState) :
  In k countryButtons ->
  exists config fs',
    getProp COUNTRY_CONFIG k = Some config /\
    FormUI.handleCountryChange parseFloat toText k fs = Some fs' /\
    FormUI.country fs' = k /\
    Form.exchangeRate (FormUI.formData fs') = toText (rate config) /\
    Form.sellingExchangeRate (FormUI.formData fs') = toText (sellingRate config) /\
    (forall n,
        n <> FormUI.in_exchangeRate -> n <> FormUI.in_sellingExchangeRate ->
        n <> FormUI.in_priceSold ->
        FormUI.getField n (FormUI.formData fs')
        = FormUI.getField n (FormUI.formData fs)) /\
    ((0 <? orDefault (parseFloat (Form.costForeign (FormUI.formData fs))) 0) = false ->
     Form.priceSold (FormUI.formData fs') = Form.priceSold (FormUI.formData fs)) /\
    ((0 <? orDefault (parseFloat (Form.costForeign (FormUI.formData fs))) 0) = true ->
     Form.priceSold (FormUI.formData fs')
     = toText (Math_round
                 (orDefault (parseFloat (Form.costForeign (FormUI.formData fs))) 0
                  * sellingRate config))).
Proof.
  intros Hk.
  assert (E : exists config, getProp COUNTRY_CONFIG k = Some config).
  { destruct Hk as [<-|[<-|[<-|[]]]]; eexists; reflexivity. }
  destruct E as [config E]. exists config.
  unfold FormUI.handleCountryChange.
  rewrite (propertyAccess_own _ _ _ E). eexists.
  split; [exact E|]. split; [reflexivity|].
  cbn [FormUI.country FormUI.formData Form.exchangeRate Form.sellingExchangeRate
       Form.priceSold].
  repeat split.
  - intros n H1 H2 H3. destruct n; try reflexivity; contradiction.
  - intros ->. reflexivity.
  - intros ->. reflexivity.
Qed.

Lemma X15_country_buttons_work_witness :
  exists fs',
    FormUI.handleCountryChange sampleParseFloat sampleToText "KR"
      (FormUI.mkFormState "JP" (sampleForm "王小明" "1" "" "")) = Some fs' /\
    FormUI.country fs' = "KR".
Proof.
  destruct (X15_country_buttons_work sampleParseFloat sampleToText "KR"
              (FormUI.mkFormState "JP" (sampleForm "王小明" "1" "" "")))
    as (config & fs' & _ & H & C & _).
  - right. left. reflexivity.
  - exists fs'. split; [exact H | exact C].
Defined.

(** Outside the buttons: a name inherited from [Object.prototype] does
    not make the handler fail, it writes ["undefined"] into both rate
    fields; any other code makes it fail. *)
Lemma handleCountryChange_outside_table
    (parseFloat : string -> number) (toText : number -> string)
    (fs : FormUI.FormState) :
  (forall k, In k objectPrototypeKeys ->
             exists fs',
               FormUI.handleCountryChange parseFloat toText k fs = Some fs' /\
               Form.exchangeRate (FormUI.formData fs') = "undefined" /\
               Form.sellingExchangeRate (FormUI.formData fs') = "undefined") /\
  (forall k, ~ In k countryButtons -> ~ In k objectPrototypeKeys ->
             FormUI.handleCountryChange parseFloat toText k fs = None).
Proof.
  split.
  - intros k Hk. unfold FormUI.handleCountryChange.
    repeat (destruct Hk as [<-|Hk]; [eexists; repeat split|]). destruct Hk.
  - intros k Hb Hp. unfold FormUI.handleCountryChange, propertyAccess.
    rewrite (getProp_missing COUNTRY_CONFIG k Hb).
    destruct (existsb (String.eqb k) objectPrototypeKeys) eqn:E; [|reflexivity].
    apply existsb_exists in E. destruct E as (x & Hx & Hk).
    apply String.eqb_eq in Hk. subst x. contradiction.
Qed.

(** X16: choosing a country and then typing a cost: provided the host
    reads back the text it printed for the country's selling rate, the
    price becomes the text of [round (cost * sellingRate)] for that
    country's selling rate. *)
Theorem X16_country_then_cost
    (parseFloat : string -> number) (toText : number -> string)
    (k value : string) (config : CountryConfig) (fs fs' : FormUI.FormState) :
  getProp COUNTRY_CONFIG k = Some config ->
  parseFloat (toText (sellingRate config)) = sellingRate config ->
  FormUI.handleCountryChange parseFloat toText k fs = Some fs' ->
  is_nan (parseFloat value) = false ->
  Form.priceSold
    (FormUI.handleChange parseFloat toText FormUI.in_costForeign value
       (FormUI.formData fs'))
  = toText (Math_round (parseFloat value * sellingRate config)).
Proof.
  intros Hcfg Hround Hchange Hv.
  unfold FormUI.handleCountryChange in Hchange.
  rewrite (propertyAccess_own _ _ _ Hcfg) in Hchange.
  injection Hchange as <-.
  unfold FormUI.handleChange. cbn [FormUI.InputName_eqb orb andb].
  cbn [FormUI.formData Form.sellingExchangeRate].
  rewrite Hround, Hv.
  assert (N : is_nan (sellingRate config) = false).
  { unfold COUNTRY_CONFIG in Hcfg. cbn [getProp] in Hcfg.
    repeat match type of Hcfg with
           | (if ?c then _ else _) = _ => destruct c
           end; try discriminate; injection Hcfg as <-; reflexivity. }
  rewrite N. reflexivity.
Qed.

Lemma X16_country_then_cost_witness :
  exists fs',
    FormUI.handleCountryChange sampleParseFloat sampleToText "KR"
      (FormUI.mkFormState "JP" (sampleForm "王小明" "1" "" "")) = Some fs' /\
    Form.priceSold
      (FormUI.handleChange sampleParseFloat sampleToText FormUI.in_costForeign "1000"
         (FormUI.formData fs'))
    = "35".
Proof.
  eexists. split; [reflexivity|].
  rewrite (X16_country_then_cost sampleParseFloat sampleToText "KR" "1000"
             (mkConfig "韓國" 0.02 0.035 "₩")
             (FormUI.mkFormState "JP" (sampleForm "王小明" "1" "" "")) _
             eq_refl eq_refl eq_refl eq_refl).
  reflexivity.
Defined.

(** * Further properties of the exports and of the analysis *)

Lemma csv_symbol_is_getCurrencySymbol c :
  (if countryIs c "KR" then "₩" else if countryIs c "OTHER" then "$" else "¥")
  = getCurrencySymbol c.
Proof.
  unfold getCurrencySymbol. destruct c as [s|]; [|reflexivity]. cbn [countryIs].
  destruct (String.eqb s "JP") eqn:E; [|reflexivity].
  apply String.eqb_eq in E. subst s. reflexivity.
Qed.

(** X17: rows line up with their headers and with the ledger: each
    rendering has one row per transaction, every clipboard row has as
    many cells as the clipboard header (11) and every CSV row as many as
    the CSV header (12). *)
Theorem X17_rows_match_headers
    (numberToString : number -> string) (toLocaleDateString : string -> string)
    (ts : list Transaction) :
  List.length (clipboardRows numberToString toLocaleDateString ts) = List.length ts /\
  List.length (csvRows numberToString toLocaleDateString ts) = List.length ts /\
  (forall t,
      List.length (clipboardCells numberToString toLocaleDateString t)
      = List.length clipboardHeaders) /\
  (forall t,
      List.length (csvCells numberToString toLocaleDateString t)
      = List.length csvHeaders).
Proof.
  unfold clipboardRows, csvRows.
  rewrite !length_map, length_rev. repeat split.
Qed.

(** X18: the CSV row is the clipboard row with its text quoted: for
    every transaction (whatever its country field holds) the date, the
    country label, the quantity and the cost rate are the same cells in
    both, the customer, the item, the foreign cost, the local unit cost
    and the price are the clipboard's cells wrapped in quotes, and the
    country sent to the analysis resolves to the same label. *)
Theorem X18_csv_row_is_quoted_clipboard_row
    (numberToString : number -> string) (toLocaleDateString : string -> string)
    (t : Transaction) :
  let clip := clipboardCells numberToString toLocaleDateString t in
  let csv := csvCells numberToString toLocaleDateString t in
  Forall (fun i => nth_error csv i = nth_error clip i) [0; 1; 4; 6]%nat /\
  Forall (fun i => nth_error csv i = option_map quoteCell (nth_error clip i))
         [2; 3; 5; 8; 9]%nat /\
  getCountryLabel (Some (countryOrJP t)) = getCountryLabel (country t).
Proof.
  cbv zeta. unfold csvCells, clipboardCells.
  rewrite csv_label_is_getCountryLabel, csv_symbol_is_getCurrencySymbol.
  split; [repeat constructor | split; [repeat constructor|]].
  unfold countryOrJP. destruct (country t) as [c|]; [|reflexivity].
  unfold truthyString. destruct (String.eqb c "") eqn:E; [|reflexivity].
  apply String.eqb_eq in E. subst c. reflexivity.
Qed.

Lemma analyzeSalesData_nonempty
    (buildPrompt : list Analysis.Entry -> string)
    (generateContent : string -> ServiceReply) (ts : list Transaction) :
  fst (analyzeSalesData buildPrompt generateContent ts) <> "".
Proof.
  destruct ts as [|t ts]; [discriminate|].
  unfold analyzeSalesData. cbn [fst].
  destruct (generateContent _) as [[text|]|]; try discriminate.
  destruct (truthyString text) eqn:E; [|discriminate].
  apply truthyString_true, E.
Qed.

(** X19: the analysis request: an empty ledger is answered with the
    fixed "no data" text without contacting the service; a non-empty
    ledger sends exactly one prompt, built from the per-transaction
    summary; a failed call yields the fixed failure text and a reply
    without text the fixed "no report" text; the text returned is never
    empty. *)
Theorem X19_analyzeSalesData
    (buildPrompt : list Analysis.Entry -> string)
    (generateContent : string -> ServiceReply) (ts : list Transaction) :
  let prompt := buildPrompt (Analysis.dataSummary ts) in
  let result := analyzeSalesData buildPrompt generateContent ts in
  fst result <> "" /\
  (ts = [] -> result = (emptyLedgerMessage, [])) /\
  (ts <> [] -> snd result = [prompt]) /\
  (ts <> [] -> generateContent prompt = Failure -> fst result = failureMessage) /\
  (ts <> [] ->
   generateContent prompt = Reply None \/ generateContent prompt = Reply (Some "") ->
   fst result = noReportMessage) /\
  (forall text,
      ts <> [] -> text <> "" -> generateContent prompt = Reply (Some text) ->
      fst result = text).
Proof.
  cbv zeta. destruct ts as [|t ts].
  - repeat split; try congruence. discriminate.
  - unfold analyzeSalesData. cbn [fst snd]. repeat split.
    + destruct (generateContent _) as [[text|]|]; try discriminate.
      destruct (truthyString text) eqn:E; [|discriminate].
      apply truthyString_true, E.
    + discriminate.
    + intros _ ->. reflexivity.
    + intros _ [-> | ->]; reflexivity.
    + intros text _ Ht ->. apply truthyString_true in Ht. rewrite Ht. reflexivity.
Qed.

Lemma X19_analyzeSalesData_witness :
  analyzeSalesData (fun _ => "p") (fun _ => Failure) [] = (emptyLedgerMessage, []) /\
  fst (analyzeSalesData (fun _ => "p") (fun _ => Failure) [txKR]) = failureMessage.
Proof.
  split.
  - destruct (X19_analyzeSalesData (fun _ => "p") (fun _ => Failure) []) as (_ & H & _).
    apply H. reflexivity.
  - destruct (X19_analyzeSalesData (fun _ => "p") (fun _ => Failure) [txKR])
      as (_ & _ & _ & H & _).
    apply H; [discriminate | reflexivity].
Defined.

(** X20: the analysis button: without a configured key (absent or
    empty) nothing is sent, the state is left as it was and one alert is
    raised; with a key the run always ends with the busy flag cleared
    and a non-empty report stored, raises no alert, and sends at most
    one prompt (none for an empty ledger). *)
Theorem X20_handleAiAnalysis
    (buildPrompt : list Analysis.Entry -> string)
    (generateContent : string -> ServiceReply)
    (apiKey : option string) (ts : list Transaction) (a : AnalysisState) :
  let run := handleAiAnalysis buildPrompt generateContent apiKey ts a in
  (apiKey = None \/ apiKey = Some "" ->
   run = (a, {| prompts := []; alerts := [missingKeyAlert] |})) /\
  (forall key,
      apiKey = Some key -> key <> "" ->
      isAnalyzing (fst run) = false /\
      (exists text, aiAnalysis (fst run) = Some text /\ text <> "") /\
      alerts (snd run) = [] /\
      (List.length (prompts (snd run)) <= 1)%nat /\
      (ts = [] -> prompts (snd run) = [])).
Proof.
  cbv zeta. split.
  - intros [-> | ->]; reflexivity.
  - intros key -> Hkey. apply truthyString_true in Hkey.
    unfold handleAiAnalysis. rewrite Hkey.
    pose proof (analyzeSalesData_nonempty buildPrompt generateContent ts) as N.
    destruct (analyzeSalesData buildPrompt generateContent ts) as [result sent] eqn:E.
    cbn [fst snd isAnalyzing aiAnalysis alerts prompts] in *.
    split; [reflexivity|]. split; [exists result; split; [reflexivity | apply N]|].
    split; [reflexivity|].
    destruct ts as [|t ts]; cbn in E; injection E as <- <-; split; cbn; auto; discriminate.
Qed.

Lemma X20_handleAiAnalysis_witness :
  handleAiAnalysis (fun _ => "p") (fun _ => Reply (Some "ok")) None [txKR]
    (mkAnalysis None false)
  = (mkAnalysis None false, {| prompts := []; alerts := [missingKeyAlert] |}) /\
  isAnalyzing
    (fst (handleAiAnalysis (fun _ => "p") (fun _ => Reply (Some "ok")) (Some "key") [txKR]
            (mkAnalysis None true)))
  = false.
Proof.
  split.
  - destruct (X20_handleAiAnalysis (fun _ => "p") (fun _ => Reply (Some "ok")) None [txKR]
                (mkAnalysis None false)) as [H _].
    apply H. left. reflexivity.
  - destruct (X20_handleAiAnalysis (fun _ => "p") (fun _ => Reply (Some "ok"))
                (Some "key") [txKR] (mkAnalysis None true)) as [_ H].
    destruct (H "key" eq_refl) as [F _]; [discriminate | exact F].
Defined.

Lemma sumZ_app f ts ts' : (sumZ f (List.app ts ts') = sumZ f ts + sumZ f ts')%Z.
Proof.
  induction ts as [|t ts IH]; [reflexivity|].
  unfold sumZ in *. cbn [List.app map fold_right]. rewrite IH. lia.
Qed.

(** X21: adding a transaction of integral amounts to a ledger of
    integral amounts, the whole staying within the safe range, raises
    each total by exactly that transaction's contribution. *)
Theorem X21_add_raises_totals (t : Transaction) (st : AppState) :
  exactLedger (List.app (transactions st) [t]) = true ->
  stats (transactions (handleAddTransaction t st))
  = statsZ (sumZ salesZ (transactions st) + salesZ t)
           (sumZ costZ (transactions st) + costZ t)
           (sumZ profitZ (transactions st) + profitZ t)
           (sumZ countZ (transactions st) + countZ t).
Proof.
  intros H. unfold handleAddTransaction. cbn [transactions].
  rewrite (stats_exact _ H), !sumZ_app.
  unfold sumZ at 2 4 6 8. cbn [map fold_right]. rewrite !Z.add_0_r. reflexivity.
Qed.

Lemma X21_add_raises_totals_witness :
  stats (transactions (handleAddTransaction txHalf (idle [txKR])))
  = statsZ (sumZ salesZ [txKR] + salesZ txHalf) (sumZ costZ [txKR] + costZ txHalf)
           (sumZ profitZ [txKR] + profitZ txHalf) (sumZ countZ [txKR] + countZ txHalf).
Proof.
  apply (X21_add_raises_totals txHalf (idle [txKR])). vm_compute. reflexivity.
Defined.
